(** * Pi-hole API client ([src/api/pihole.py]): model and verified properties

    The development embeds the [API] class of [src/api/pihole.py] together
    with the parts of the Python runtime it calls into:

    - [Py]: exceptions, results, and the [str] methods used by the code;
    - [urllib_parse]: [urllib.parse.urlparse] (CPython 3.11), which
      [API.validate_api_url] calls;
    - [requests]: the [Response] object and the calls made on it;
    - [pihole]: the class itself, as state-passing code over an object
      store, a network and the log of calls made into [requests];
    - [main_py]: the script of [src/main.py] that makes a client and calls
      it once. *)

From Stdlib Require Import ZArith Strings.String Strings.Ascii.
From Stdlib Require Import Numbers.DecimalString Numbers.DecimalZ.
From Stdlib Require Import Floats Bool List Lia.
From stdpp Require Import base option gmap strings.
Import ListNotations.

Local Open Scope string_scope.
Local Open Scope Z_scope.
Local Open Scope list_scope.

(* ===================================================================== *)
(** * The Python runtime *)
(* ===================================================================== *)

Module Py.

(** Classes of [requests.exceptions.RequestException] that [requests.get]
    raises by itself.  [HTTPError] is not among them: only
    [Response.raise_for_status] and user code raise it. *)
Inductive transport_error_class :=
| ConnectionError
| ProxyError
| SSLError
| ConnectTimeout
| ReadTimeout
| RetryError
| TooManyRedirects
| MissingSchema
| InvalidSchema
| InvalidURL
| InvalidHeader
| ChunkedEncodingError
| ContentDecodingError.

(** Exceptions, by class, with the message they are built from. *)
Inductive exn :=
| ValueError (msg : string)
| IndexError (msg : string)
| AttributeError (msg : string)
| RecursionError (msg : string)
| HTTPError (msg : string)                 (* requests.exceptions.HTTPError *)
| JSONDecodeError (msg : string)           (* requests.exceptions.JSONDecodeError *)
| TransportError (cls : transport_error_class) (msg : string).

(** [isinstance(e, requests.exceptions.HTTPError)] *)
Definition isinstance_HTTPError (e : exn) : bool :=
  match e with HTTPError _ => true | _ => false end.

(** [isinstance(e, requests.exceptions.JSONDecodeError)] *)
Definition isinstance_JSONDecodeError (e : exn) : bool :=
  match e with JSONDecodeError _ => true | _ => false end.

(** The outcome of evaluating a Python expression. *)
Inductive result (A : Type) :=
| Ok (a : A)
| Raise (e : exn).
Arguments Ok {A} a.
Arguments Raise {A} e.

Definition rbind {A B} (r : result A) (k : A -> result B) : result B :=
  match r with
  | Ok a => k a
  | Raise e => Raise e
  end.

Declare Scope result_scope.
Delimit Scope result_scope with result.
Notation "'try!' x := c 'in' k" := (rbind c (fun x => k))
  (at level 10, x pattern, c at level 100, k at level 200) : result_scope.

(** ** Characters

    A [str] is modelled by a [string]: its characters are the code points
    below 256. *)

Definition ord (c : ascii) : Z := Z.of_N (N_of_ascii c).

(** [c.isascii()] *)
Definition isascii (c : ascii) : bool := ord c <? 128.

(** [c.isalpha()]; it is only called on characters for which [isascii]
    holds (the [and] in [urlsplit] short-circuits), where it tests for a
    letter of the Latin alphabet. *)
Definition isalpha (c : ascii) : bool :=
  ((65 <=? ord c) && (ord c <=? 90)) || ((97 <=? ord c) && (ord c <=? 122)).

(** [c.lower()] on the code points below 256: the capital letters of ASCII
    and of Latin-1 (U+00C0 to U+00DE but the multiplication sign) move up
    by 32. *)
Definition lower_char (c : ascii) : ascii :=
  let n := ord c in
  if ((65 <=? n) && (n <=? 90))
     || ((192 <=? n) && (n <=? 222) && negb (n =? 215))
  then ascii_of_N (Z.to_N (n + 32))
  else c.

(** ** Strings *)

(** [len(s)] *)
Definition len (s : string) : Z := Z.of_nat (String.length s).

(** [c in s], for a character [c] *)
Fixpoint contains (c : ascii) (s : string) : bool :=
  match s with
  | EmptyString => false
  | String d s' => if Ascii.eqb c d then true else contains c s'
  end.

(** [s.lower()] *)
Fixpoint lower (s : string) : string :=
  match s with
  | EmptyString => EmptyString
  | String c s' => String (lower_char c) (lower s')
  end.

(** [s.isascii()] *)
Fixpoint str_isascii (s : string) : bool :=
  match s with
  | EmptyString => true
  | String c s' => isascii c && str_isascii s'
  end.

(** [s.lstrip(chars)] *)
Fixpoint lstrip (chars : string) (s : string) : string :=
  match s with
  | EmptyString => EmptyString
  | String c s' => if contains c chars then lstrip chars s' else s
  end.

(** [s.rstrip(chars)] *)
Fixpoint rstrip (chars : string) (s : string) : string :=
  match s with
  | EmptyString => EmptyString
  | String c s' =>
      match rstrip chars s' with
      | EmptyString => if contains c chars then EmptyString
                       else String c EmptyString
      | r => String c r
      end
  end.

(** [s.strip(chars)] *)
Definition strip (chars : string) (s : string) : string :=
  rstrip chars (lstrip chars s).

(** [s.replace(c, "")], for a character [c] *)
Fixpoint remove (c : ascii) (s : string) : string :=
  match s with
  | EmptyString => EmptyString
  | String d s' => if Ascii.eqb c d then remove c s' else String d (remove c s')
  end.

(** The offset of the first [c] in [s], counted from [k]. *)
Fixpoint find_at (c : ascii) (s : string) (k : Z) : Z :=
  match s with
  | EmptyString => -1
  | String d s' => if Ascii.eqb c d then k else find_at c s' (k + 1)
  end.

(** The offset of the last [c] in [s], counted from [k]. *)
Fixpoint rfind_at (c : ascii) (s : string) (k : Z) : Z :=
  match s with
  | EmptyString => -1
  | String d s' =>
      let r := rfind_at c s' (k + 1) in
      if 0 <=? r then r else if Ascii.eqb c d then k else -1
  end.

(** [s.find(c)]: the lowest index of [c] in [s], or -1. *)
Definition find (c : ascii) (s : string) : Z := find_at c s 0.

(** [s.rfind(c)]: the highest index of [c] in [s], or -1. *)
Definition rfind (c : ascii) (s : string) : Z := rfind_at c s 0.

(** An index of a slice, brought into [0 .. len]: negative indices count
    from the end. *)
Definition clip (n : Z) (i : Z) : Z :=
  if i <? 0 then Z.max 0 (n + i) else Z.min i n.

(** [s[lo:hi]]; [None] is an omitted bound. *)
Definition slice (s : string) (lo hi : option Z) : string :=
  let n := len s in
  let l := match lo with Some i => clip n i | None => 0 end in
  let h := match hi with Some i => clip n i | None => n end in
  String.substring (Z.to_nat l) (Z.to_nat (h - l)) s.

(** [s.find(c, start)] *)
Definition find_from (c : ascii) (s : string) (start : Z) : Z :=
  let l := clip (len s) start in
  find_at c (slice s (Some l) None) l.

(** [s[i]], for [0 <= i] *)
Definition getitem (s : string) (i : Z) : result ascii :=
  match String.get (Z.to_nat i) s with
  | Some c => Ok c
  | None => Raise (IndexError "string index out of range")
  end.

(** [s.startswith(p)] *)
Definition startswith (p s : string) : bool := String.prefix p s.

(** [s.partition(c)], for a character [c]: the part before the first [c],
    whether there is one, and the part after it. *)
Definition partition (c : ascii) (s : string) : string * bool * string :=
  let i := find c s in
  if i <? 0 then (s, false, EmptyString)
  else (slice s None (Some i), true, slice s (Some (i + 1)) None).

(** [s.rpartition(c)], for a character [c]: split at the last [c]; without
    one the whole string is the last part. *)
Definition rpartition (c : ascii) (s : string) : string * bool * string :=
  let i := rfind c s in
  if i <? 0 then (EmptyString, false, s)
  else (slice s None (Some i), true, slice s (Some (i + 1)) None).

(** [s.split(c, 1)] when [c in s]: the parts around the first [c]. *)
Definition split1 (c : ascii) (s : string) : string * string :=
  let '(a, _, b) := partition c s in (a, b).

(** [bool(s)]: a string is true when it is not empty. *)
Definition truthy (s : string) : bool :=
  match s with EmptyString => false | String _ _ => true end.

(** [all(l)] for a list of strings. *)
Definition all (l : list string) : bool := forallb truthy l.

(** [str(n)] and [f"{n}"] for an [int]. *)
Definition str_of_int (n : Z) : string := NilEmpty.string_of_int (Z.to_int n).

End Py.
Import Py.

(* ===================================================================== *)
(** * [urllib.parse] (CPython 3.11, [Lib/urllib/parse.py]) *)
(* ===================================================================== *)

Module urllib_parse.

Definition uses_params : list string :=
  [""; "ftp"; "hdl"; "prospero"; "http"; "imap";
   "https"; "shttp"; "rtsp"; "rtspu"; "sip"; "sips";
   "mms"; "sftp"; "tel"].

(** Characters valid in scheme names. *)
Definition scheme_chars : string :=
  "abcdefghijklmnopqrstuvwxyz" +:+
  "ABCDEFGHIJKLMNOPQRSTUVWXYZ" +:+
  "0123456789" +:+
  "+-.".

(** The code points 0 to 32: leading C0 control characters and space. *)
Definition _WHATWG_C0_CONTROL_OR_SPACE : string :=
  string_of_list_ascii (List.map ascii_of_nat (seq 0 33)).

(** Tab, carriage return and line feed. *)
Definition _UNSAFE_URL_BYTES_TO_REMOVE : list ascii :=
  ["009"%char; "013"%char; "010"%char].

Record SplitResult := mkSplitResult {
  split_scheme : string;
  split_netloc : string;
  split_path : string;
  split_query : string;
  split_fragment : string
}.

Record ParseResult := mkParseResult {
  scheme : string;
  netloc : string;
  path : string;
  params : string;
  query : string;
  fragment : string
}.

(** What [ipaddress.ip_address] makes of a string: an address of one of
    the two families, or the message of the [ValueError] it raises. *)
Inductive ip_address_result :=
| IPv4Address
| IPv6Address
| NoAddress (msg : string).

Definition _splitparams (url : string) : string * string :=
  if contains "/" url then
    let i := find_from ";" url (rfind "/" url) in
    if i <? 0 then (url, "")
    else (slice url None (Some i), slice url (Some (i + 1)) None)
  else
    let i := find ";" url in
    (slice url None (Some i), slice url (Some (i + 1)) None).

Definition _splitnetloc (url : string) (start : Z) : string * string :=
  let delim :=
    fold_left
      (fun delim c =>
         let wdelim := find_from c url start in
         if 0 <=? wdelim then Z.min delim wdelim else delim)
      ["/"; "?"; "#"]%char (len url) in
  (slice url (Some start) (Some delim), slice url (Some delim) None).

Definition is_hexdigit (c : ascii) : bool :=
  let n := ord c in
  ((48 <=? n) && (n <=? 57)) || ((97 <=? n) && (n <=? 102))
  || ((65 <=? n) && (n <=? 70)).

Fixpoint skip_hexdigits (s : string) : string :=
  match s with
  | String c s' => if is_hexdigit c then skip_hexdigits s' else s
  | EmptyString => EmptyString
  end.

(** [re.match(r"\Av[a-fA-F0-9]+\..+\Z", hostname)]: a [v], hexadecimal
    digits (one at least, and as many as there are, since the character
    that follows has to be the dot), a dot, and one character or more up
    to the end, none of them a line feed. *)
Definition match_IPvFuture (hostname : string) : bool :=
  match hostname with
  | String "v" (String h _ as digits) =>
      is_hexdigit h &&
      match skip_hexdigits digits with
      | String "." rest => truthy rest && negb (contains "010" rest)
      | _ => false
      end
  | _ => false
  end.

Section Parse.

(** [ipaddress.ip_address] and [unicodedata.normalize('NFKC', _)] are
    tables of the Python runtime; the parser is stated for any such. *)
Variable ip_address : string -> ip_address_result.
Variable normalize_NFKC : string -> string.

Definition _checknetloc (netloc : string) : result unit :=
  if negb (truthy netloc) || str_isascii netloc then Ok tt
  else
    let n := remove "@" netloc in
    let n := remove ":" n in
    let n := remove "#" n in
    let n := remove "?" n in
    let netloc2 := normalize_NFKC n in
    if String.eqb n netloc2 then Ok tt
    else if existsb (fun c => contains c netloc2) ["/"; "?"; "#"; "@"; ":"]%char
    then Raise (ValueError ("netloc '" +:+ netloc +:+ "' contains invalid " +:+
                            "characters under NFKC normalization"))
    else Ok tt.

Definition _check_bracketed_host (hostname : string) : result unit :=
  if startswith "v" hostname then
    if negb (match_IPvFuture hostname)
    then Raise (ValueError "IPvFuture address is invalid")
    else Ok tt
  else
    match ip_address hostname with
    | NoAddress msg => Raise (ValueError msg)
    | IPv4Address => Raise (ValueError "An IPv4 address cannot be in brackets")
    | IPv6Address => Ok tt
    end.

Definition _check_bracketed_netloc (netloc : string) : result unit :=
  let hostname_and_port := snd (rpartition "@" netloc) in
  let '(before_bracket, have_open_br, bracketed) :=
    partition "[" hostname_and_port in
  if have_open_br then
    if truthy before_bracket then Raise (ValueError "Invalid IPv6 URL")
    else
      let '(hostname, _, port) := partition "]" bracketed in
      if truthy port && negb (startswith ":" port)
      then Raise (ValueError "Invalid IPv6 URL")
      else _check_bracketed_host hostname
  else
    let '(hostname, _, port) := partition ":" hostname_and_port in
    _check_bracketed_host hostname.

(** [urlsplit], on [str] arguments (for which [_coerce_args] changes
    nothing; the cache in front of it changes no result). *)
Definition urlsplit (url : string) (scheme : string) (allow_fragments : bool)
  : result SplitResult :=
  (let url := lstrip _WHATWG_C0_CONTROL_OR_SPACE url in
   let scheme := strip _WHATWG_C0_CONTROL_OR_SPACE scheme in
   let url := fold_left (fun u b => remove b u) _UNSAFE_URL_BYTES_TO_REMOVE url in
   let scheme :=
     fold_left (fun u b => remove b u) _UNSAFE_URL_BYTES_TO_REMOVE scheme in
   let i := find ":" url in
   try! starts_alpha :=
     (if 0 <? i
      then try! c := getitem url 0 in Ok (isascii c && isalpha c)
      else Ok false) in
   let '(scheme, url) :=
     if starts_alpha then
       if forallb (fun c => contains c scheme_chars)
                  (list_ascii_of_string (slice url None (Some i)))
       then (lower (slice url None (Some i)), slice url (Some (i + 1)) None)
       else (scheme, url)
     else (scheme, url) in
   try! (netloc, url) :=
     (if String.eqb (slice url None (Some 2)) "//" then
        let '(netloc, url) := _splitnetloc url 2 in
        if (contains "[" netloc && negb (contains "]" netloc))
           || (contains "]" netloc && negb (contains "[" netloc))
        then Raise (ValueError "Invalid IPv6 URL")
        else
          try! _ :=
            (if contains "[" netloc && contains "]" netloc
             then _check_bracketed_netloc netloc
             else Ok tt) in
          Ok (netloc, url)
      else Ok ("", url)) in
   let '(url, fragment) :=
     if allow_fragments && contains "#" url then split1 "#" url
     else (url, "") in
   let '(url, query) :=
     if contains "?" url then split1 "?" url else (url, "") in
   try! _ := _checknetloc netloc in
   Ok (mkSplitResult scheme netloc url query fragment))%result.

Definition urlparse (url : string) (scheme : string) (allow_fragments : bool)
  : result ParseResult :=
  (try! splitresult := urlsplit url scheme allow_fragments in
   let '(mkSplitResult scheme netloc url query fragment) := splitresult in
   let '(url, params) :=
     if existsb (String.eqb scheme) uses_params && contains ";" url
     then _splitparams url
     else (url, "") in
   Ok (mkParseResult scheme netloc url params query fragment))%result.

End Parse.

End urllib_parse.

(* ===================================================================== *)
(** * [requests]: responses and the calls the client makes on them *)
(* ===================================================================== *)

Module requests.

(** [Union[int, float]] *)
Inductive number :=
| Int (n : Z)
| Float (x : float).

(** The values the client puts into a [params] or [headers] dictionary. *)
Inductive pyvalue :=
| PyNum (n : number)
| PyStr (s : string).

(** A dictionary literal, in the order of its items (the order in which
    [requests] writes them into the query string). *)
Definition dict : Type := list (string * pyvalue).

(** What [json.loads] gives. *)
#[warnings="-register-all"]
Inductive JSONValue :=
| JNull
| JBool (b : bool)
| JInt (n : Z)
| JFloat (x : float)
| JStr (s : string)
| JList (l : list JSONValue)
| JDict (items : list (string * JSONValue)).

(** The exceptions of [json.loads] other than [JSONDecodeError]: the
    [ValueError] of an integer literal longer than the limit on the
    digits of an [int] (4300), and the [RecursionError] of arrays or
    objects nested deeper than the interpreter recurses. *)
Inductive decoder_crash :=
| IntegerTooLong (msg : string)
| NestingTooDeep (msg : string).

Definition crash_exn (c : decoder_crash) : exn :=
  match c with
  | IntegerTooLong msg => ValueError msg
  | NestingTooDeep msg => RecursionError msg
  end.

(** The decoder's answer on a body: the value, the message of the
    [JSONDecodeError], or another exception. *)
Inductive decoded :=
| Decoded (v : JSONValue)
| Undecodable (msg : string)
| Crashed (c : decoder_crash).

Record Response := mkResponse {
  status_code : Z;
  reason : string;
  url : string;
  text : string
}.

(** [Response.raise_for_status] ([requests/models.py]): the message is
    empty unless the status is a client or a server error. *)
Definition http_error_msg (r : Response) : string :=
  if (400 <=? status_code r) && (status_code r <? 500) then
    str_of_int (status_code r) +:+ " Client Error: " +:+ reason r
      +:+ " for url: " +:+ url r
  else if (500 <=? status_code r) && (status_code r <? 600) then
    str_of_int (status_code r) +:+ " Server Error: " +:+ reason r
      +:+ " for url: " +:+ url r
  else "".

Definition raise_for_status (r : Response) : result unit :=
  if truthy (http_error_msg r) then Raise (HTTPError (http_error_msg r))
  else Ok tt.

(** The calls the client makes into the library, as they happen. *)
Inductive event :=
| EvGet (url : string) (params headers : option dict)
| EvRaiseForStatus (r : Response)
| EvJson (r : Response).

(** What [requests.get] comes back with: a response, or one of the
    exceptions of the transport. *)
Inductive answer :=
| Responded (r : Response)
| Failed (cls : transport_error_class) (msg : string).

End requests.
Import requests.

(* ===================================================================== *)
(** * [src/api/pihole.py] *)
(* ===================================================================== *)

Module pihole.

(** An instance of [API] once [__init__] has run: its two attributes. *)
Record API := mkAPI {
  api_url : string;
  api_key : string
}.

(** References to objects. *)
Definition ref : Type := positive.

Section Validators.

Variable ip_address : string -> urllib_parse.ip_address_result.
Variable normalize_NFKC : string -> string.

(** [API.validate_api_url] (a static method) *)
Definition validate_api_url (api_url : string) : result bool :=
  (try! parsed_url := urllib_parse.urlparse ip_address normalize_NFKC api_url "" true in
   Ok (all [urllib_parse.scheme parsed_url; urllib_parse.netloc parsed_url]))%result.

End Validators.

(** [API.validate_api_key] (a static method) *)
Definition validate_api_key (api_key : string) : bool :=
  len api_key >? 0.

Section Client.

(** The network: [requests.get] asks it, and it may answer differently
    each time. *)
Variable Net : Type.
Variable http_get : string -> option dict -> option dict -> Net -> answer * Net.

(** The JSON decoder behind [Response.json]. *)
Variable json_loads : string -> decoded.

(** The state a method runs in: the objects, the network, and the calls
    made into [requests] so far. *)
Record State := mkState {
  heap : gmap ref API;
  net : Net;
  log : list event
}.

(** A computation returns or raises, and leaves a state. *)
Definition M (A : Type) : Type := State -> result A * State.

Definition ret {A} (a : A) : M A := fun s => (Ok a, s).

Definition raise {A} (e : exn) : M A := fun s => (Raise e, s).

Definition bind {A B} (m : M A) (k : A -> M B) : M B :=
  fun s =>
    match m s with
    | (Ok a, s') => k a s'
    | (Raise e, s') => (Raise e, s')
    end.

(** [try: body except cls: handler] *)
Definition try_except {A} (body : M A) (cls : exn -> bool) (handler : exn -> M A)
  : M A :=
  fun s =>
    match body s with
    | (Ok a, s') => (Ok a, s')
    | (Raise e, s') => if cls e then handler e s' else (Raise e, s')
    end.

(** A pure computation, run as a step. *)
Definition lift {A} (r : result A) : M A := fun s => (r, s).

Definition emit (e : event) : M unit :=
  fun s => (Ok tt, mkState (heap s) (net s) (log s ++ [e])).

Declare Scope M_scope.
Delimit Scope M_scope with M.
Notation "'do!' x := c 'in' k" := (bind c (fun x => k))
  (at level 10, x pattern, c at level 100, k at level 200) : M_scope.

(** [self.name], for the two attributes; an object on which [__init__]
    has not run has none. *)
Definition getattr {A} (self : ref) (name : string) (field : API -> A) : M A :=
  fun s =>
    match heap s !! self with
    | Some obj => (Ok (field obj), s)
    | None =>
        (Raise (AttributeError ("'API' object has no attribute '" +:+ name +:+ "'")), s)
    end.

(** [requests.get(url, params=params, headers=headers)] *)
Definition requests_get (url : string) (params headers : option dict) : M Response :=
  (do! _ := emit (EvGet url params headers) in
   fun s =>
     match http_get url params headers (net s) with
     | (Responded r, n) => (Ok r, mkState (heap s) n (log s))
     | (Failed cls msg, n) =>
         (Raise (TransportError cls msg), mkState (heap s) n (log s))
     end)%M.

(** [response.raise_for_status()] *)
Definition Response_raise_for_status (r : Response) : M unit :=
  (do! _ := emit (EvRaiseForStatus r) in lift (raise_for_status r))%M.

(** [response.json()] ([requests/models.py]): a [JSONDecodeError] of the
    decoder is raised again as the one of [requests]; any other exception
    of the decoder passes. *)
Definition Response_json (r : Response) : M JSONValue :=
  (do! _ := emit (EvJson r) in
   match json_loads (text r) with
   | Decoded v => ret v
   | Undecodable msg => raise (JSONDecodeError msg)
   | Crashed c => raise (crash_exn c)
   end)%M.

(** [API.__init__] *)
Definition __init__ (self : ref) (api_url api_key : string) : M unit :=
  fun s => (Ok tt, mkState (<[self := mkAPI api_url api_key]> (heap s)) (net s) (log s)).

(** [API(api_url, api_key)]: a new object, initialised. *)
Definition new (api_url api_key : string) : M ref :=
  (do! self := (fun s => (Ok (fresh (dom (heap s))), s)) in
   do! _ := __init__ self api_url api_key in
   ret self)%M.

(** [API.make_api_call] *)
Definition make_api_call (self : ref) (endpoint : string)
    (params headers : option dict) : M JSONValue :=
  (do! self_api_url := getattr self "api_url" api_url in
   let url := self_api_url +:+ endpoint in
   do! response := requests_get url params headers in
   if status_code response =? 200 then
     try_except
       (do! _ := Response_raise_for_status response in
        Response_json response)
       isinstance_JSONDecodeError
       (fun _ => raise (ValueError "Invalid JSON response."))
   else
     raise (HTTPError ("API call failed with status code " +:+
                       str_of_int (status_code response) +:+ ".")))%M.

(** [API.disable_adblocker] *)
Definition disable_adblocker (self : ref) (disable_time : number) : M bool :=
  (do! self_api_key := getattr self "api_key" api_key in
   let params := [("disable", PyNum disable_time); ("auth", PyStr self_api_key)] in
   try_except
     (do! _ := make_api_call self "/admin/api.php" (Some params) None in
      ret true)
     isinstance_HTTPError
     (fun _ => ret false))%M.

End Client.

Arguments heap {Net} s.
Arguments net {Net} s.
Arguments log {Net} s.
Arguments mkState {Net} heap net log.
Arguments ret {Net A} a s.
Arguments raise {Net A} e s.
Arguments bind {Net A B} m k s.
Arguments try_except {Net A} body cls handler s.
Arguments lift {Net A} r s.
Arguments emit {Net} e s.
Arguments getattr {Net A} self name field s.
Arguments requests_get {Net} http_get url params headers s.
Arguments Response_raise_for_status {Net} r s.
Arguments Response_json {Net} json_loads r s.
Arguments __init__ {Net} self api_url api_key s.
Arguments new {Net} api_url api_key s.
Arguments make_api_call {Net} http_get json_loads self endpoint params headers s.
Arguments disable_adblocker {Net} http_get json_loads self disable_time s.

End pihole.
Import pihole.

(* ===================================================================== *)
(** * A scripted network and decoder

    The test doubles of a mocked transport: the network answers the
    requests from a script, one answer each, and the decoder knows the
    bodies of a table. *)
(* ===================================================================== *)

Module Mock.

Definition Net : Type := list answer.

Definition http_get (url : string) (params headers : option dict) (n : Net)
  : answer * Net :=
  match n with
  | a :: n' => (a, n')
  | [] => (Failed ConnectionError "Connection refused", [])
  end.

Definition dquote : string := String "034"%char EmptyString.

(** The body [{"status":"disabled"}]. *)
Definition body_disabled : string :=
  "{" +:+ dquote +:+ "status" +:+ dquote +:+ ":"
      +:+ dquote +:+ "disabled" +:+ dquote +:+ "}".

(** Two thousand opening brackets, and five thousand times the digit 1. *)
Definition body_nested : string :=
  string_of_list_ascii (repeat "["%char (Z.to_nat 2000)).

Definition body_digits : string :=
  string_of_list_ascii (repeat "1"%char (Z.to_nat 5000)).

Definition json_loads (body : string) : decoded :=
  if String.eqb body body_disabled then Decoded (JDict [("status", JStr "disabled")])
  else if String.eqb body "null" then Decoded JNull
  else if String.eqb body body_nested then
    Crashed (NestingTooDeep
               ("maximum recursion depth exceeded while decoding " +:+
                "a JSON array from a unicode string"))
  else if String.eqb body body_digits then
    Crashed (IntegerTooLong
               ("Exceeds the limit (4300 digits) for integer string " +:+
                "conversion: value has 5000 digits; use " +:+
                "sys.set_int_max_str_digits() to increase the limit"))
  else Undecodable "Expecting value: line 1 column 1 (char 0)".

Definition ip_address (s : string) : urllib_parse.ip_address_result :=
  if String.eqb s "::1" then urllib_parse.IPv6Address
  else if String.eqb s "10.0.0.5" then urllib_parse.IPv4Address
  else urllib_parse.NoAddress
         ("'" +:+ s +:+ "' does not appear to be an IPv4 or IPv6 address").

Definition normalize_NFKC (s : string) : string := s.

Definition ok (body : string) : Response :=
  mkResponse 200 "OK" "http://pihole.local/admin/api.php" body.

Definition forbidden : Response :=
  mkResponse 403 "Forbidden" "http://pihole.local/admin/api.php" "".

(** One client, [API("http://pihole.local", "secret")], at reference 1,
    before any request, in front of a network that will give [script]. *)
Definition client : API := mkAPI "http://pihole.local" "secret".

Definition start (script : list answer) : State Net :=
  mkState {[ 1%positive := client ]} script [].

End Mock.

(* ===================================================================== *)
(** * Reading a run *)
(* ===================================================================== *)

(** The message of the [HTTPError] that [make_api_call] raises. *)
Definition status_message (status : Z) : string :=
  "API call failed with status code " +:+ str_of_int status +:+ ".".

(** [disable_adblocker] turns the outcome of the call into its own. *)
Definition to_bool (r : result JSONValue) : result bool :=
  match r with
  | Ok _ => Ok true
  | Raise e => if isinstance_HTTPError e then Ok false else Raise e
  end.

(** The [params] that [disable_adblocker] builds. *)
Definition disable_params (obj : API) (disable_time : number) : dict :=
  [("disable", PyNum disable_time); ("auth", PyStr (api_key obj))].

(** Whether an entry of the log is a request sent. *)
Definition is_get (e : event) : bool :=
  match e with EvGet _ _ _ => true | _ => false end.

(** Whether an entry of the log is a decoding of a body. *)
Definition is_json (e : event) : bool :=
  match e with EvJson _ => true | _ => false end.

Section Outcome.

Context {Net : Type}.
Variable http_get : string -> option dict -> option dict -> Net -> answer * Net.
Variable json_loads : string -> decoded.

(** The state after a request that left the network as [n], with [evs]
    the calls made into the library. *)
Definition after (s : State Net) (n : Net) (evs : list event) : State Net :=
  mkState (heap s) n (log s ++ evs).

(** The outcome of [make_api_call] on an initialised client, read off the
    answer of the network. *)
Definition call_outcome (s : State Net) (url : string)
    (params headers : option dict) : result JSONValue * State Net :=
  match http_get url params headers (net s) with
  | (Failed cls msg, n) =>
      (Raise (TransportError cls msg), after s n [EvGet url params headers])
  | (Responded r, n) =>
      if status_code r =? 200 then
        (match json_loads (text r) with
         | Decoded v => Ok v
         | Undecodable _ => Raise (ValueError "Invalid JSON response.")
         | Crashed c => Raise (crash_exn c)
         end,
         after s n [EvGet url params headers; EvRaiseForStatus r; EvJson r])
      else
        (Raise (HTTPError (status_message (status_code r))),
         after s n [EvGet url params headers])
  end.

End Outcome.

(* ===================================================================== *)
(** * [src/main.py] *)
(* ===================================================================== *)

Module main_py.

(** [disable_time = 30] *)
Definition disable_time : number := Int 30.

Section Script.

Context {Net : Type}.
Variable http_get : string -> option dict -> option dict -> Net -> answer * Net.
Variable json_loads : string -> decoded.

(** The script from the creation of the client on, for the values [url]
    and [pi_hole_api_key] that [os.getenv] gave it (both variables set):
    [hole = pihole.API(url, pi_hole_api_key)] and
    [hole.disable_adblocker(disable_time)], whose value is dropped. *)
Definition main (url pi_hole_api_key : string) : M Net unit :=
  bind (new url pi_hole_api_key) (fun hole =>
  bind (disable_adblocker http_get json_loads hole disable_time) (fun _ =>
  ret tt)).

End Script.

Arguments main {Net} http_get json_loads url pi_hole_api_key s.

End main_py.

(* ===================================================================== *)
(** * Properties of the client *)
(* ===================================================================== *)

(** ** The status check of a response *)

Lemma http_error_msg_200 (r : Response) :
  status_code r = 200 -> http_error_msg r = "".
Proof. intros H. unfold http_error_msg. rewrite H. reflexivity. Qed.

Lemma raise_for_status_200 (r : Response) :
  status_code r = 200 -> raise_for_status r = Ok tt.
Proof.
  intros H. unfold raise_for_status. rewrite (http_error_msg_200 r H).
  reflexivity.
Qed.

(** ** Printing the status *)

Lemma str_of_int_inj (a b : Z) : str_of_int a = str_of_int b -> a = b.
Proof.
  unfold str_of_int. intros H.
  assert (Hi : Z.to_int a = Z.to_int b).
  { apply (f_equal NilEmpty.int_of_string) in H.
    rewrite !NilEmpty.isi in H. congruence. }
  apply (f_equal Z.of_int) in Hi. rewrite !DecimalZ.of_to in Hi. exact Hi.
Qed.

Lemma append_inj_l (p a b : string) : p +:+ a = p +:+ b -> a = b.
Proof.
  induction p as [|c p IH]; simpl; intros H; [exact H|].
  injection H as H. auto.
Qed.

Lemma append_dot_inj (a b : string) : a +:+ "." = b +:+ "." -> a = b.
Proof.
  revert b. induction a as [|c a IH]; intros [|d b] H; simpl in *.
  - reflexivity.
  - injection H as <- H. destruct b; discriminate.
  - injection H as -> H. destruct a; discriminate.
  - injection H as -> H. f_equal. auto.
Qed.

Lemma status_message_inj (a b : Z) :
  status_message a = status_message b -> a = b.
Proof.
  unfold status_message. intros H.
  apply append_inj_l in H. apply append_dot_inj in H.
  apply str_of_int_inj, H.
Qed.

(** ** One call, by the answer of the network *)

Section ClientProperties.

Context {Net : Type}.
Variable http_get : string -> option dict -> option dict -> Net -> answer * Net.
Variable json_loads : string -> decoded.

Lemma make_api_call_run (self : ref) (obj : API) (endpoint : string)
    (params headers : option dict) (s : State Net) :
  heap s !! self = Some obj ->
  make_api_call http_get json_loads self endpoint params headers s
  = call_outcome http_get json_loads s (api_url obj +:+ endpoint) params headers.
Proof.
  intros Hself.
  unfold make_api_call, call_outcome, bind, getattr. rewrite Hself.
  unfold requests_get, bind, emit. cbn [heap net log].
  destruct (http_get _ _ _ _) as [[r|cls msg] n]; [|reflexivity].
  destruct (status_code r =? 200) eqn:Hst; [|reflexivity].
  apply Z.eqb_eq in Hst.
  unfold try_except, Response_raise_for_status, Response_json, bind, emit, lift.
  cbn [heap net log]. rewrite (raise_for_status_200 r Hst).
  unfold after. cbn [heap net log].
  destruct (json_loads (text r)) as [v|msg|[msg|msg]]; cbn;
    rewrite <- !app_assoc; reflexivity.
Qed.

Lemma make_api_call_uninitialised (self : ref) (endpoint : string)
    (params headers : option dict) (s : State Net) :
  heap s !! self = None ->
  make_api_call http_get json_loads self endpoint params headers s
  = (Raise (AttributeError "'API' object has no attribute 'api_url'"), s).
Proof.
  intros Hself. unfold make_api_call, bind, getattr. rewrite Hself. reflexivity.
Qed.

Lemma disable_adblocker_run (self : ref) (obj : API) (t : number) (s : State Net) :
  heap s !! self = Some obj ->
  disable_adblocker http_get json_loads self t s
  = (to_bool (fst (make_api_call http_get json_loads self "/admin/api.php"
                     (Some (disable_params obj t)) None s)),
     snd (make_api_call http_get json_loads self "/admin/api.php"
            (Some (disable_params obj t)) None s)).
Proof.
  intros Hself.
  unfold disable_adblocker at 1, bind, getattr, try_except. rewrite Hself.
  fold (disable_params obj t).
  destruct (make_api_call _ _ _ _ _ _ _) as [[v|e] s']; cbn; [reflexivity|].
  destruct (isinstance_HTTPError e); reflexivity.
Qed.

Lemma disable_adblocker_uninitialised (self : ref) (t : number) (s : State Net) :
  heap s !! self = None ->
  disable_adblocker http_get json_loads self t s
  = (Raise (AttributeError "'API' object has no attribute 'api_key'"), s).
Proof.
  intros Hself. unfold disable_adblocker, bind, getattr. rewrite Hself.
  reflexivity.
Qed.

Lemma new_run (api_url api_key : string) (s : State Net) :
  new api_url api_key s
  = (Ok (fresh (dom (heap s))),
     snd (__init__ (fresh (dom (heap s))) api_url api_key s))
  /\ heap s !! fresh (dom (heap s)) = None.
Proof.
  split; [reflexivity|]. apply not_elem_of_dom, is_fresh.
Qed.

Lemma call_outcome_heap (s : State Net) (url : string) (params headers : option dict) :
  heap (snd (call_outcome http_get json_loads s url params headers)) = heap s.
Proof.
  unfold call_outcome.
  destruct (http_get _ _ _ _) as [[r|cls msg] n]; [|reflexivity].
  destruct (status_code r =? 200); reflexivity.
Qed.

(** A call on any object, initialised or not, leaves every object as it
    was. *)
Lemma make_api_call_heap (self : ref) (endpoint : string)
    (params headers : option dict) (s : State Net) :
  heap (snd (make_api_call http_get json_loads self endpoint params headers s))
  = heap s.
Proof.
  destruct (heap s !! self) as [obj|] eqn:Hself.
  - rewrite (make_api_call_run self obj) by exact Hself.
    apply call_outcome_heap.
  - rewrite make_api_call_uninitialised by exact Hself. reflexivity.
Qed.

Lemma disable_adblocker_heap (self : ref) (t : number) (s : State Net) :
  heap (snd (disable_adblocker http_get json_loads self t s)) = heap s.
Proof.
  destruct (heap s !! self) as [obj|] eqn:Hself.
  - rewrite (disable_adblocker_run self obj) by exact Hself.
    apply make_api_call_heap.
  - rewrite disable_adblocker_uninitialised by exact Hself. reflexivity.
Qed.

(** The calls into the library that one call of [make_api_call] adds to
    the log: the request first, and no second request. *)
Lemma call_outcome_log (s : State Net) (url : string) (params headers : option dict) :
  exists evs,
    log (snd (call_outcome http_get json_loads s url params headers))
    = log s ++ EvGet url params headers :: evs
    /\ forallb (fun e => negb (is_get e)) evs = true.
Proof.
  unfold call_outcome.
  destruct (http_get _ _ _ _) as [[r|cls msg] n].
  - destruct (status_code r =? 200); eexists; split; reflexivity.
  - eexists; split; reflexivity.
Qed.

Lemma call_outcome_net (s : State Net) (url : string) (params headers : option dict) :
  net (snd (call_outcome http_get json_loads s url params headers))
  = snd (http_get url params headers (net s)).
Proof.
  unfold call_outcome.
  destruct (http_get _ _ _ _) as [[r|cls msg] n]; [|reflexivity].
  destruct (status_code r =? 200); reflexivity.
Qed.

Lemma make_api_call_net (self : ref) (obj : API) (endpoint : string)
    (params headers : option dict) (s : State Net) :
  heap s !! self = Some obj ->
  net (snd (make_api_call http_get json_loads self endpoint params headers s))
  = snd (http_get (api_url obj +:+ endpoint) params headers (net s)).
Proof.
  intros Hself. rewrite (make_api_call_run self obj) by exact Hself.
  apply call_outcome_net.
Qed.

Lemma make_api_call_log (self : ref) (obj : API) (endpoint : string)
    (params headers : option dict) (s : State Net) :
  heap s !! self = Some obj ->
  exists evs,
    log (snd (make_api_call http_get json_loads self endpoint params headers s))
    = log s ++ EvGet (api_url obj +:+ endpoint) params headers :: evs
    /\ forallb (fun e => negb (is_get e)) evs = true.
Proof.
  intros Hself. rewrite (make_api_call_run self obj) by exact Hself.
  apply call_outcome_log.
Qed.

End ClientProperties.

(** ** The claims about [make_api_call] and [disable_adblocker] *)

Section Claims.

Context {Net : Type}.
Variable http_get : string -> option dict -> option dict -> Net -> answer * Net.
Variable json_loads : string -> decoded.

Lemma call_outcome_same_net (s1 s2 : State Net) (url : string)
    (params headers : option dict) :
  net s1 = net s2 ->
  fst (call_outcome http_get json_loads s1 url params headers)
  = fst (call_outcome http_get json_loads s2 url params headers)
  /\ net (snd (call_outcome http_get json_loads s1 url params headers))
     = net (snd (call_outcome http_get json_loads s2 url params headers)).
Proof.
  intros Hnet. unfold call_outcome. rewrite Hnet.
  destruct (http_get _ _ _ _) as [[r|cls msg] n]; [|split; reflexivity].
  destruct (status_code r =? 200); split; reflexivity.
Qed.

Lemma call_outcome_HTTPError (s : State Net) (url : string)
    (params headers : option dict) :
  (exists msg, fst (call_outcome http_get json_loads s url params headers)
               = Raise (HTTPError msg))
  <-> (exists r n, http_get url params headers (net s) = (Responded r, n)
                   /\ status_code r <> 200).
Proof.
  unfold call_outcome. split.
  - intros [msg H]. destruct (http_get _ _ _ _) as [[r|cls m] n]; [|discriminate].
    exists r, n. split; [reflexivity|].
    intros Hst. rewrite Hst in H. cbn in H.
    destruct (json_loads (text r)) as [v|m|[m|m]]; discriminate.
  - intros (r & n & Hget & Hst). rewrite Hget.
    apply Z.eqb_neq in Hst. rewrite Hst. eexists. reflexivity.
Qed.

Lemma to_bool_false (r : result JSONValue) :
  to_bool r = Ok false <-> exists msg, r = Raise (HTTPError msg).
Proof.
  split.
  - destruct r as [v|e]; [discriminate|]. destruct e; try discriminate.
    intros _. eexists. reflexivity.
  - intros [msg ->]. reflexivity.
Qed.

(** C1.  On an initialised client and for every [disable_time],
    [disable_adblocker] returns [True] when the call it makes returns,
    returns [False] exactly when that call raises [HTTPError], which is
    exactly when the network answered with a status other than 200, and
    lets every other exception of the call through to its own caller: the
    [ValueError] of an undecodable body and the errors of the transport
    among them.  The state it leaves is the one the call leaves. *)
Theorem disable_adblocker_catches_only_HTTPError
    (self : ref) (obj : API) (disable_time : number) (s : State Net) :
  heap s !! self = Some obj ->
  let params := [("disable", PyNum disable_time); ("auth", PyStr (api_key obj))] in
  let call :=
    make_api_call http_get json_loads self "/admin/api.php" (Some params) None s in
  let r := disable_adblocker http_get json_loads self disable_time s in
  (forall v, fst call = Ok v -> fst r = Ok true)
  /\ (fst r = Ok false <-> exists msg, fst call = Raise (HTTPError msg))
  /\ (fst r = Ok false <->
      exists resp n,
        http_get (api_url obj +:+ "/admin/api.php") (Some params) None (net s)
        = (Responded resp, n)
        /\ status_code resp <> 200)
  /\ (forall msg, fst call = Raise (ValueError msg) ->
                  fst r = Raise (ValueError msg))
  /\ (forall cls msg, fst call = Raise (TransportError cls msg) ->
                      fst r = Raise (TransportError cls msg))
  /\ (forall e, fst call = Raise e -> isinstance_HTTPError e = false ->
                fst r = Raise e)
  /\ snd r = snd call.
Proof.
  intros Hself params call r.
  assert (Hr : r = (to_bool (fst call), snd call)).
  { subst r call params. apply (disable_adblocker_run _ _ self obj). exact Hself. }
  rewrite Hr. cbn [fst snd].
  assert (Hfalse : to_bool (fst call) = Ok false
                   <-> exists msg, fst call = Raise (HTTPError msg))
    by apply to_bool_false.
  repeat split.
  - intros v ->. reflexivity.
  - apply Hfalse.
  - apply Hfalse.
  - intros H. apply Hfalse in H. subst call.
    rewrite (make_api_call_run _ _ self obj) in H by exact Hself.
    apply call_outcome_HTTPError in H. exact H.
  - intros H. apply Hfalse. subst call.
    rewrite (make_api_call_run _ _ self obj) by exact Hself.
    apply call_outcome_HTTPError. exact H.
  - intros msg ->. reflexivity.
  - intros cls msg ->. reflexivity.
  - intros e -> He. cbn. rewrite He. reflexivity.
Qed.

(** C2.  When the network answers the request of [make_api_call] with
    status 200 and the decoder decodes the body, [make_api_call] returns
    the decoded value (a JSON value, not the response). *)
Theorem make_api_call_returns_parsed_json
    (self : ref) (obj : API) (endpoint : string) (params headers : option dict)
    (s : State Net) (r : Response) (n : Net) (v : JSONValue) :
  heap s !! self = Some obj ->
  http_get (api_url obj +:+ endpoint) params headers (net s) = (Responded r, n) ->
  status_code r = 200 ->
  json_loads (text r) = Decoded v ->
  fst (make_api_call http_get json_loads self endpoint params headers s) = Ok v.
Proof.
  intros Hself Hget Hst Hjson.
  rewrite (make_api_call_run _ _ self obj) by exact Hself.
  unfold call_outcome. rewrite Hget, Hst, Hjson. reflexivity.
Qed.

(** C3.  When the network answers the request of [make_api_call] with a
    status other than 200, [make_api_call] raises [HTTPError] with the
    message "API call failed with status code <status>.", from which the
    status can be told, and the only call it has made into the library is
    the request: the body is not decoded (whatever the decoder is). *)
Theorem make_api_call_non_200_raises_HTTPError
    (self : ref) (obj : API) (endpoint : string) (params headers : option dict)
    (s : State Net) (r : Response) (n : Net) :
  heap s !! self = Some obj ->
  http_get (api_url obj +:+ endpoint) params headers (net s) = (Responded r, n) ->
  status_code r <> 200 ->
  make_api_call http_get json_loads self endpoint params headers s
  = (Raise (HTTPError ("API call failed with status code " +:+
                       str_of_int (status_code r) +:+ ".")),
     mkState (heap s) n
       (log s ++ [EvGet (api_url obj +:+ endpoint) params headers]))
  /\ (forall status : Z,
        "API call failed with status code " +:+ str_of_int status +:+ "."
        = "API call failed with status code " +:+
          str_of_int (status_code r) +:+ "." ->
        status = status_code r)
  /\ exists evs,
      log (snd (make_api_call http_get json_loads self endpoint params headers s))
      = log s ++ evs
      /\ forallb (fun e => negb (is_json e)) evs = true.
Proof.
  intros Hself Hget Hst.
  assert (Hrun : make_api_call http_get json_loads self endpoint params headers s
                 = (Raise (HTTPError (status_message (status_code r))),
                    after s n [EvGet (api_url obj +:+ endpoint) params headers])).
  { rewrite (make_api_call_run _ _ self obj) by exact Hself.
    unfold call_outcome. rewrite Hget.
    apply Z.eqb_neq in Hst. rewrite Hst. reflexivity. }
  split; [exact Hrun|split].
  - intros status H. apply status_message_inj. exact H.
  - rewrite Hrun. eexists. split; reflexivity.
Qed.

(** C4, as amended.  When the network answers the request of
    [make_api_call] with status 200 and the decoder reports that the body
    is no JSON (its [JSONDecodeError]), [make_api_call] raises
    [ValueError] with the message "Invalid JSON response." (with its full
    stop), which is not an [HTTPError].  Any other exception of the
    decoder comes out of [make_api_call] as it is; it is no [HTTPError]
    either. *)
Theorem make_api_call_invalid_json_raises_ValueError
    (self : ref) (obj : API) (endpoint : string) (params headers : option dict)
    (s : State Net) (r : Response) (n : Net) :
  heap s !! self = Some obj ->
  http_get (api_url obj +:+ endpoint) params headers (net s) = (Responded r, n) ->
  status_code r = 200 ->
  (forall msg,
      json_loads (text r) = Undecodable msg ->
      fst (make_api_call http_get json_loads self endpoint params headers s)
      = Raise (ValueError "Invalid JSON response.")
      /\ isinstance_HTTPError (ValueError "Invalid JSON response.") = false)
  /\ (forall c,
      json_loads (text r) = Crashed c ->
      fst (make_api_call http_get json_loads self endpoint params headers s)
      = Raise (crash_exn c)
      /\ isinstance_HTTPError (crash_exn c) = false).
Proof.
  intros Hself Hget Hst.
  rewrite (make_api_call_run _ _ self obj) by exact Hself.
  unfold call_outcome. rewrite Hget, Hst. cbn [Z.eqb Pos.eqb fst].
  split.
  - intros msg ->. split; reflexivity.
  - intros c ->. split; [reflexivity|]. destruct c; reflexivity.
Qed.

(** C7.  [make_api_call] sends one request, to the URL that is the base
    URL of the client followed by the endpoint, character for character,
    and with the [params] and [headers] it was given: the log gains that
    request and no other, and the network is left as [requests.get],
    asked once with exactly these arguments, left it. *)
Theorem make_api_call_gets_concatenated_url
    (self : ref) (obj : API) (endpoint : string) (params headers : option dict)
    (s : State Net) :
  heap s !! self = Some obj ->
  (exists evs,
    log (snd (make_api_call http_get json_loads self endpoint params headers s))
    = log s ++ EvGet (api_url obj +:+ endpoint) params headers :: evs
    /\ forallb (fun e => negb (is_get e)) evs = true)
  /\ net (snd (make_api_call http_get json_loads self endpoint params headers s))
     = snd (http_get (api_url obj +:+ endpoint) params headers (net s))
  /\ (forall cls msg,
        fst (http_get (api_url obj +:+ endpoint) params headers (net s))
        = Failed cls msg ->
        fst (make_api_call http_get json_loads self endpoint params headers s)
        = Raise (TransportError cls msg))
  /\ (forall r,
        fst (http_get (api_url obj +:+ endpoint) params headers (net s))
        = Responded r ->
        status_code r <> 200 ->
        fst (make_api_call http_get json_loads self endpoint params headers s)
        = Raise (HTTPError ("API call failed with status code " +:+
                            str_of_int (status_code r) +:+ "."))).
Proof.
  intros Hself. split; [|split; [|split]].
  - apply make_api_call_log. exact Hself.
  - apply make_api_call_net. exact Hself.
  - intros cls msg Hans.
    rewrite (make_api_call_run _ _ self obj) by exact Hself.
    unfold call_outcome.
    destruct (http_get _ _ _ _) as [a n]. cbn [fst] in Hans. subst a.
    reflexivity.
  - intros r Hans Hst.
    rewrite (make_api_call_run _ _ self obj) by exact Hself.
    unfold call_outcome.
    destruct (http_get _ _ _ _) as [a n]. cbn [fst] in Hans. subst a.
    apply Z.eqb_neq in Hst. rewrite Hst. reflexivity.
Qed.

(** C8.  For every [disable_time], zero and negative ones too,
    [disable_adblocker] makes the call
    [make_api_call("/admin/api.php", {"disable": disable_time, "auth": api_key})]:
    it leaves the state that call leaves, and the one request it sends
    goes to the base URL followed by "/admin/api.php" with these two
    parameters, [disable_time] as it was given. *)
Theorem disable_adblocker_passes_disable_time_through
    (self : ref) (obj : API) (disable_time : number) (s : State Net) :
  heap s !! self = Some obj ->
  let params := [("disable", PyNum disable_time); ("auth", PyStr (api_key obj))] in
  snd (disable_adblocker http_get json_loads self disable_time s)
  = snd (make_api_call http_get json_loads self "/admin/api.php"
           (Some params) None s)
  /\ exists evs,
      log (snd (disable_adblocker http_get json_loads self disable_time s))
      = log s ++ EvGet (api_url obj +:+ "/admin/api.php") (Some params) None :: evs
      /\ forallb (fun e => negb (is_get e)) evs = true.
Proof.
  intros Hself params.
  rewrite (disable_adblocker_run _ _ self obj) by exact Hself.
  cbn [snd]. split; [reflexivity|].
  apply make_api_call_log. exact Hself.
Qed.

(** C9.  [__init__] stores the two strings it is given as the attributes
    of the client and touches no other object, the network or the log.
    [make_api_call] and [disable_adblocker] leave every object as it was,
    and the validators, being static methods, have no state to change.
    What a call returns depends on the objects through the attributes of
    its own client only.  So a second [disable_adblocker] finds the client
    as the first found it and sends the same request again. *)
Theorem client_state_is_framed
    (self : ref) (url key : string) (disable_time : number) (s : State Net) :
  let s0 := snd (__init__ self url key s) in
  let s1 := snd (disable_adblocker http_get json_loads self disable_time s0) in
  let s2 := snd (disable_adblocker http_get json_loads self disable_time s1) in
  let request :=
    EvGet (url +:+ "/admin/api.php")
      (Some [("disable", PyNum disable_time); ("auth", PyStr key)]) None in
  (heap s0 !! self = Some (mkAPI url key)
   /\ (forall other, other <> self -> heap s0 !! other = heap s !! other)
   /\ net s0 = net s /\ log s0 = log s)
  /\ (forall o endpoint params headers (st : State Net),
        heap (snd (make_api_call http_get json_loads o endpoint params headers st))
        = heap st)
  /\ (forall o t (st : State Net),
        heap (snd (disable_adblocker http_get json_loads o t st)) = heap st)
  /\ (forall ip_address normalize_NFKC u (st : State Net),
        snd (lift (validate_api_url ip_address normalize_NFKC u) st) = st)
  /\ (forall k (st : State Net), snd (ret (validate_api_key k) st) = st)
  /\ (forall o endpoint params headers (st st' : State Net),
        heap st !! o = heap st' !! o -> net st = net st' ->
        fst (make_api_call http_get json_loads o endpoint params headers st)
        = fst (make_api_call http_get json_loads o endpoint params headers st'))
  /\ (forall o t (st st' : State Net),
        heap st !! o = heap st' !! o -> net st = net st' ->
        fst (disable_adblocker http_get json_loads o t st)
        = fst (disable_adblocker http_get json_loads o t st'))
  /\ (heap s1 !! self = Some (mkAPI url key)
      /\ heap s2 !! self = Some (mkAPI url key)
      /\ exists evs1 evs2,
          log s2 = log s ++ request :: evs1 ++ request :: evs2
          /\ forallb (fun e => negb (is_get e)) evs1 = true
          /\ forallb (fun e => negb (is_get e)) evs2 = true).
Proof.
  intros s0 s1 s2 request.
  assert (Hinit : heap s0 !! self = Some (mkAPI url key))
    by (subst s0; cbn; apply lookup_insert_eq).
  assert (Hcall : forall o endpoint params headers (st st' : State Net),
        heap st !! o = heap st' !! o -> net st = net st' ->
        fst (make_api_call http_get json_loads o endpoint params headers st)
        = fst (make_api_call http_get json_loads o endpoint params headers st')).
  { intros o endpoint params headers st st' Hobj Hnet.
    destruct (heap st' !! o) as [obj|] eqn:Ho.
    - rewrite !(make_api_call_run _ _ o obj) by assumption.
      apply call_outcome_same_net, Hnet.
    - rewrite !make_api_call_uninitialised by assumption. reflexivity. }
  split; [|repeat split].
  - repeat split; try reflexivity; [exact Hinit|].
    intros other Hne. subst s0. cbn. apply lookup_insert_ne. congruence.
  - intros. apply make_api_call_heap.
  - intros. apply disable_adblocker_heap.
  - exact Hcall.
  - intros o t st st' Hobj Hnet.
    destruct (heap st' !! o) as [obj|] eqn:Ho.
    + rewrite !(disable_adblocker_run _ _ o obj) by assumption.
      cbn [fst]. f_equal. apply Hcall; congruence.
    + rewrite !disable_adblocker_uninitialised by assumption. reflexivity.
  - subst s1. rewrite disable_adblocker_heap. exact Hinit.
  - subst s2 s1. rewrite !disable_adblocker_heap. exact Hinit.
  - assert (H1 : heap s1 !! self = Some (mkAPI url key))
      by (subst s1; rewrite disable_adblocker_heap; exact Hinit).
    destruct (make_api_call_log http_get json_loads self _ "/admin/api.php"
                (Some (disable_params (mkAPI url key) disable_time)) None s0 Hinit)
      as (evs1 & Hlog1 & Hevs1).
    destruct (make_api_call_log http_get json_loads self _ "/admin/api.php"
                (Some (disable_params (mkAPI url key) disable_time)) None s1 H1)
      as (evs2 & Hlog2 & Hevs2).
    exists evs1, evs2. repeat split; [|exact Hevs1|exact Hevs2].
    unfold s2. rewrite (disable_adblocker_run _ _ self _ disable_time s1 H1).
    cbn [snd]. rewrite Hlog2.
    unfold s1. rewrite (disable_adblocker_run _ _ self _ disable_time s0 Hinit).
    cbn [snd]. rewrite Hlog1.
    rewrite <- app_assoc. reflexivity.
Qed.

(** C10, as amended.  On a response with status 200 [raise_for_status]
    returns, so in the branch of [make_api_call] for that status the check
    does not raise: whatever the body of the [try] raises is raised by
    [response.json()], the [JSONDecodeError] of a body that is no JSON or
    another exception of the decoder, and the call raises the
    [ValueError] made from the former or the latter as it is. *)
Theorem raise_for_status_cannot_raise_on_200 (r : Response) (s : State Net) :
  status_code r = 200 ->
  raise_for_status r = Ok tt
  /\ fst (Response_raise_for_status r s) = Ok tt
  /\ (forall e,
        fst (bind (Response_raise_for_status r)
               (fun _ => Response_json json_loads r) s) = Raise e ->
        (exists msg, json_loads (text r) = Undecodable msg
                     /\ e = JSONDecodeError msg)
        \/ (exists c, json_loads (text r) = Crashed c /\ e = crash_exn c))
  /\ (forall self obj endpoint params headers n e,
        heap s !! self = Some obj ->
        http_get (api_url obj +:+ endpoint) params headers (net s)
        = (Responded r, n) ->
        fst (make_api_call http_get json_loads self endpoint params headers s)
        = Raise e ->
        (exists msg, json_loads (text r) = Undecodable msg
                     /\ e = ValueError "Invalid JSON response.")
        \/ (exists c, json_loads (text r) = Crashed c /\ e = crash_exn c)).
Proof.
  intros Hst.
  assert (Hok : raise_for_status r = Ok tt) by (apply raise_for_status_200, Hst).
  split; [exact Hok|]. split; [|split].
  - unfold Response_raise_for_status, bind, emit, lift. cbn. exact Hok.
  - intros e. unfold Response_raise_for_status, Response_json, bind, emit, lift.
    cbn. rewrite Hok.
    destruct (json_loads (text r)) as [v|msg|c]; cbn; [discriminate| |];
      intros [= <-]; eauto.
  - intros self obj endpoint params headers n e Hself Hget.
    rewrite (make_api_call_run _ _ self obj) by exact Hself.
    unfold call_outcome. rewrite Hget, Hst. cbn.
    destruct (json_loads (text r)) as [v|msg|c]; [discriminate| |];
      intros [= <-]; eauto.
Qed.

End Claims.

(** ** The claims about [validate_api_url] *)

Section ValidatorClaims.

Variable ip_address : string -> urllib_parse.ip_address_result.
Variable normalize_NFKC : string -> string.

Lemma all_pair (a b : string) :
  all [a; b] = true <-> a <> "" /\ b <> "".
Proof.
  unfold all. cbn. destruct a, b; cbn; split; try discriminate;
    try (intros [Ha Hb]; congruence); intros _; split; discriminate.
Qed.

(** [validate_api_url] returns when [urlparse] does, and raises what
    [urlparse] raises. *)
Lemma validate_api_url_run (u : string) :
  validate_api_url ip_address normalize_NFKC u
  = match urllib_parse.urlparse ip_address normalize_NFKC u "" true with
    | Ok p => Ok (all [urllib_parse.scheme p; urllib_parse.netloc p])
    | Raise e => Raise e
    end.
Proof. reflexivity. Qed.

(** C5, at the input on which it fails.  [urlparse] raises [ValueError]
    on a network location with an opening bracket and no closing one, and
    [validate_api_url], which has no handler, raises it in turn instead of
    returning [False]. *)
Theorem validate_api_url_raises_on_unclosed_bracket :
  validate_api_url ip_address normalize_NFKC "http://["
  = Raise (ValueError "Invalid IPv6 URL").
Proof. reflexivity. Qed.

(** C6.  [validate_api_url] returns [True] exactly when [urlparse] gives a
    result whose scheme and network location are both non-empty (and
    [False] exactly when it gives a result with one of them empty).  It
    returns [True] for "http://pihole.local" and "https://10.0.0.5:8080",
    [False] for "", "pihole.local" and "http://". *)
Theorem validate_api_url_true_iff_scheme_and_netloc :
  (forall u : string,
      validate_api_url ip_address normalize_NFKC u = Ok true
      <-> exists p,
          urllib_parse.urlparse ip_address normalize_NFKC u "" true = Ok p
          /\ urllib_parse.scheme p <> "" /\ urllib_parse.netloc p <> "")
  /\ (forall u : string,
      validate_api_url ip_address normalize_NFKC u = Ok false
      <-> exists p,
          urllib_parse.urlparse ip_address normalize_NFKC u "" true = Ok p
          /\ ~ (urllib_parse.scheme p <> "" /\ urllib_parse.netloc p <> ""))
  /\ validate_api_url ip_address normalize_NFKC "http://pihole.local" = Ok true
  /\ validate_api_url ip_address normalize_NFKC "https://10.0.0.5:8080" = Ok true
  /\ validate_api_url ip_address normalize_NFKC "" = Ok false
  /\ validate_api_url ip_address normalize_NFKC "pihole.local" = Ok false
  /\ validate_api_url ip_address normalize_NFKC "http://" = Ok false.
Proof.
  split; [|split; [|repeat split]].
  - intros u. rewrite validate_api_url_run.
    destruct (urllib_parse.urlparse _ _ u "" true) as [p|e]; split.
    + intros [= H]. exists p. split; [reflexivity|]. apply all_pair, H.
    + intros (p' & [= <-] & H). f_equal. apply all_pair, H.
    + discriminate.
    + intros (p' & Hp & _). discriminate.
  - intros u. rewrite validate_api_url_run.
    destruct (urllib_parse.urlparse _ _ u "" true) as [p|e]; split.
    + intros [= H]. exists p. split; [reflexivity|].
      intros Hne. apply (proj2 (all_pair _ _)) in Hne.
      change (all [urllib_parse.scheme p; urllib_parse.netloc p] = false) in H.
      congruence.
    + intros (p' & [= <-] & H). f_equal.
      destruct (all _) eqn:Hall; [|reflexivity].
      exfalso. apply H, all_pair, Hall.
    + discriminate.
    + intros (p' & Hp & _). discriminate.
Qed.

End ValidatorClaims.

(* ===================================================================== *)
(** * The claims at concrete inputs *)
(* ===================================================================== *)

(** The runs of section 8 of the specification, on the client of [Mock]:
    200 with a JSON body, 403, and 200 with a body that is not JSON. *)
Example disable_adblocker_30_disabled :
  fst (disable_adblocker Mock.http_get Mock.json_loads 1%positive (Int 30)
         (Mock.start [Responded (Mock.ok Mock.body_disabled)])) = Ok true.
Proof. reflexivity. Qed.

Example disable_adblocker_30_forbidden :
  fst (disable_adblocker Mock.http_get Mock.json_loads 1%positive (Int 30)
         (Mock.start [Responded Mock.forbidden])) = Ok false.
Proof. reflexivity. Qed.

Example disable_adblocker_30_not_json :
  fst (disable_adblocker Mock.http_get Mock.json_loads 1%positive (Int 30)
         (Mock.start [Responded (Mock.ok "not json")]))
  = Raise (ValueError "Invalid JSON response.").
Proof. reflexivity. Qed.

(** A network that fails once and then answers: the second call is not
    affected by the first. *)
Example disable_adblocker_twice :
  let s1 := snd (disable_adblocker Mock.http_get Mock.json_loads 1%positive
                   (Int 30)
                   (Mock.start [Failed ReadTimeout "Read timed out.";
                                Responded (Mock.ok Mock.body_disabled)])) in
  fst (disable_adblocker Mock.http_get Mock.json_loads 1%positive (Int 30) s1)
  = Ok true
  /\ List.filter is_get
       (log (snd (disable_adblocker Mock.http_get Mock.json_loads 1%positive
                    (Int 30) s1)))
     = [EvGet "http://pihole.local/admin/api.php"
          (Some [("disable", PyNum (Int 30)); ("auth", PyStr "secret")]) None;
        EvGet "http://pihole.local/admin/api.php"
          (Some [("disable", PyNum (Int 30)); ("auth", PyStr "secret")]) None].
Proof. split; reflexivity. Qed.

(** C1 on the client of [Mock] when the network answers 403. *)
Lemma disable_adblocker_catches_only_HTTPError_witness :
  heap (Mock.start [Responded Mock.forbidden]) !! 1%positive = Some Mock.client
  /\ fst (disable_adblocker Mock.http_get Mock.json_loads 1%positive (Int 30)
            (Mock.start [Responded Mock.forbidden])) = Ok false.
Proof.
  split; [reflexivity|].
  destruct (disable_adblocker_catches_only_HTTPError
              Mock.http_get Mock.json_loads 1%positive Mock.client (Int 30)
              (Mock.start [Responded Mock.forbidden]) eq_refl)
    as (_ & Hfalse & _).
  apply Hfalse. exists "API call failed with status code 403.". reflexivity.
Defined.

(** C2 on the client of [Mock] when the network answers 200 with the
    body [{"status":"disabled"}]. *)
Lemma make_api_call_returns_parsed_json_witness :
  let s := Mock.start [Responded (Mock.ok Mock.body_disabled)] in
  heap s !! 1%positive = Some Mock.client
  /\ Mock.http_get (api_url Mock.client +:+ "/admin/api.php") None None (net s)
     = (Responded (Mock.ok Mock.body_disabled), [])
  /\ status_code (Mock.ok Mock.body_disabled) = 200
  /\ Mock.json_loads (text (Mock.ok Mock.body_disabled))
     = Decoded (JDict [("status", JStr "disabled")])
  /\ fst (make_api_call Mock.http_get Mock.json_loads 1%positive
            "/admin/api.php" None None s)
     = Ok (JDict [("status", JStr "disabled")]).
Proof.
  intros s. do 4 (split; [reflexivity|]).
  apply (make_api_call_returns_parsed_json
           Mock.http_get Mock.json_loads 1%positive Mock.client
           "/admin/api.php" None None s (Mock.ok Mock.body_disabled) []
           (JDict [("status", JStr "disabled")]));
    reflexivity.
Defined.

(** C3 on the client of [Mock] when the network answers 403. *)
Lemma make_api_call_non_200_raises_HTTPError_witness :
  let s := Mock.start [Responded Mock.forbidden] in
  heap s !! 1%positive = Some Mock.client
  /\ Mock.http_get (api_url Mock.client +:+ "/admin/api.php") None None (net s)
     = (Responded Mock.forbidden, [])
  /\ status_code Mock.forbidden <> 200
  /\ make_api_call Mock.http_get Mock.json_loads 1%positive
       "/admin/api.php" None None s
     = (Raise (HTTPError "API call failed with status code 403."),
        mkState (heap s) []
          [EvGet "http://pihole.local/admin/api.php" None None]).
Proof.
  intros s. split; [reflexivity|]. split; [reflexivity|].
  split; [discriminate|].
  apply (make_api_call_non_200_raises_HTTPError
           Mock.http_get Mock.json_loads 1%positive Mock.client
           "/admin/api.php" None None s Mock.forbidden []);
    [reflexivity|reflexivity|discriminate].
Defined.

(** C4 as stated fails twice on the client of [Mock].  When the network
    answers 200 with the body [not json], the message of the [ValueError]
    is not "Invalid JSON response"; and when it answers 200 with two
    thousand opening brackets, no JSON either, the decoder's
    [RecursionError] comes out, not a [ValueError]. *)
Lemma make_api_call_invalid_json_message_differs :
  let s := Mock.start [Responded (Mock.ok "not json")] in
  let s' := Mock.start [Responded (Mock.ok Mock.body_nested)] in
  (heap s !! 1%positive = Some Mock.client
   /\ Mock.http_get (api_url Mock.client +:+ "/admin/api.php") None None (net s)
      = (Responded (Mock.ok "not json"), [])
   /\ status_code (Mock.ok "not json") = 200
   /\ Mock.json_loads (text (Mock.ok "not json"))
      = Undecodable "Expecting value: line 1 column 1 (char 0)"
   /\ fst (make_api_call Mock.http_get Mock.json_loads 1%positive
             "/admin/api.php" None None s)
      <> Raise (ValueError "Invalid JSON response"))
  /\ (heap s' !! 1%positive = Some Mock.client
      /\ status_code (Mock.ok Mock.body_nested) = 200
      /\ fst (make_api_call Mock.http_get Mock.json_loads 1%positive
                "/admin/api.php" None None s')
         = Raise (RecursionError
                    ("maximum recursion depth exceeded while decoding " +:+
                     "a JSON array from a unicode string"))).
Proof.
  intros s s'. split.
  - do 4 (split; [reflexivity|]). discriminate.
  - do 2 (split; [reflexivity|]). vm_compute. reflexivity.
Qed.

(** C4 as amended, on the body [not json]. *)
Lemma make_api_call_invalid_json_raises_ValueError_witness :
  let s := Mock.start [Responded (Mock.ok "not json")] in
  heap s !! 1%positive = Some Mock.client
  /\ Mock.http_get (api_url Mock.client +:+ "/admin/api.php") None None (net s)
     = (Responded (Mock.ok "not json"), [])
  /\ status_code (Mock.ok "not json") = 200
  /\ Mock.json_loads (text (Mock.ok "not json"))
     = Undecodable "Expecting value: line 1 column 1 (char 0)"
  /\ fst (make_api_call Mock.http_get Mock.json_loads 1%positive
            "/admin/api.php" None None s)
     = Raise (ValueError "Invalid JSON response.").
Proof.
  intros s. do 4 (split; [reflexivity|]).
  destruct (make_api_call_invalid_json_raises_ValueError
              Mock.http_get Mock.json_loads 1%positive Mock.client
              "/admin/api.php" None None s (Mock.ok "not json") []
              eq_refl eq_refl eq_refl) as [Hundec _].
  apply (Hundec "Expecting value: line 1 column 1 (char 0)"). reflexivity.
Defined.

(** C7 on a client whose base URL ends with a slash: the two slashes
    stay, and of the two answers the network had ready one is left. *)
Lemma make_api_call_gets_concatenated_url_witness :
  let s : State Mock.Net :=
    mkState {[ 1%positive := mkAPI "http://pihole.local/" "x" ]}
      [Responded Mock.forbidden; Responded (Mock.ok "null")] [] in
  heap s !! 1%positive = Some (mkAPI "http://pihole.local/" "x")
  /\ (exists evs,
        log (snd (make_api_call Mock.http_get Mock.json_loads 1%positive
                    "/admin/api.php" (Some [("auth", PyStr "x")]) None s))
        = EvGet "http://pihole.local//admin/api.php"
            (Some [("auth", PyStr "x")]) None :: evs
        /\ forallb (fun e => negb (is_get e)) evs = true)
  /\ net (snd (make_api_call Mock.http_get Mock.json_loads 1%positive
                 "/admin/api.php" (Some [("auth", PyStr "x")]) None s))
     = [Responded (Mock.ok "null")].
Proof.
  intros s. split; [reflexivity|].
  destruct (make_api_call_gets_concatenated_url
              Mock.http_get Mock.json_loads 1%positive
              (mkAPI "http://pihole.local/" "x") "/admin/api.php"
              (Some [("auth", PyStr "x")]) None s eq_refl)
    as (Hlog & Hnet & _).
  split; [exact Hlog|exact Hnet].
Defined.

(** C8 on the client of [Mock] with a negative [disable_time]. *)
Lemma disable_adblocker_passes_disable_time_through_witness :
  let s := Mock.start [Responded (Mock.ok Mock.body_disabled)] in
  heap s !! 1%positive = Some Mock.client
  /\ exists evs,
      log (snd (disable_adblocker Mock.http_get Mock.json_loads 1%positive
                  (Int (-5)) s))
      = EvGet "http://pihole.local/admin/api.php"
          (Some [("disable", PyNum (Int (-5))); ("auth", PyStr "secret")]) None
        :: evs
      /\ forallb (fun e => negb (is_get e)) evs = true.
Proof.
  intros s. split; [reflexivity|].
  apply (disable_adblocker_passes_disable_time_through
           Mock.http_get Mock.json_loads 1%positive Mock.client (Int (-5)) s
           eq_refl).
Defined.

(** C10 as stated fails: on the client of [Mock], when the network
    answers 200 with two thousand opening brackets, the body of the
    [try] raises the decoder's [RecursionError], which is not the
    JSON-decode error, and [make_api_call] raises it in turn. *)
Lemma try_body_raises_RecursionError :
  let r := Mock.ok Mock.body_nested in
  let e := RecursionError ("maximum recursion depth exceeded while decoding " +:+
                           "a JSON array from a unicode string") in
  status_code r = 200
  /\ fst (bind (Response_raise_for_status r)
            (fun _ => Response_json Mock.json_loads r) (Mock.start [])) = Raise e
  /\ isinstance_JSONDecodeError e = false
  /\ fst (make_api_call Mock.http_get Mock.json_loads 1%positive
            "/admin/api.php" None None (Mock.start [Responded r])) = Raise e
  /\ e <> ValueError "Invalid JSON response.".
Proof.
  intros r e. split; [reflexivity|].
  split; [vm_compute; reflexivity|]. split; [reflexivity|].
  split; [vm_compute; reflexivity|discriminate].
Qed.

(** C10 as amended, on a response with status 200 and a body that is not
    JSON: the [ValueError] of the call is the decoder's doing. *)
Lemma raise_for_status_cannot_raise_on_200_witness :
  let r := Mock.ok "not json" in
  let s := Mock.start [Responded r] in
  status_code r = 200
  /\ raise_for_status r = Ok tt
  /\ fst (make_api_call Mock.http_get Mock.json_loads 1%positive
            "/admin/api.php" None None s)
     = Raise (ValueError "Invalid JSON response.")
  /\ ((exists msg, Mock.json_loads (text r) = Undecodable msg
                   /\ ValueError "Invalid JSON response."
                      = ValueError "Invalid JSON response.")
      \/ (exists c, Mock.json_loads (text r) = Crashed c
                    /\ ValueError "Invalid JSON response." = crash_exn c)).
Proof.
  intros r s. split; [reflexivity|].
  destruct (raise_for_status_cannot_raise_on_200
              Mock.http_get Mock.json_loads r s eq_refl)
    as (Hok & _ & _ & Hcall).
  split; [exact Hok|]. split; [reflexivity|].
  apply (Hcall 1%positive Mock.client "/admin/api.php" None None []);
    reflexivity.
Defined.

(* ===================================================================== *)
(** * Further properties of the client *)
(* ===================================================================== *)

Section ClientBehaviour.

Context {Net : Type}.
Variable http_get : string -> option dict -> option dict -> Net -> answer * Net.
Variable json_loads : string -> decoded.

(** X1.  What [disable_adblocker] gives is read off the one answer of the
    network: the error of the transport when the request failed, [True]
    on status 200 with a body that decodes (whatever it decodes to),
    [ValueError] on status 200 with a body that the decoder reports as no
    JSON, any other exception of the decoder as it is, and [False] on
    every other status. *)
Theorem disable_adblocker_by_answer
    (self : ref) (obj : API) (disable_time : number) (s : State Net) :
  heap s !! self = Some obj ->
  fst (disable_adblocker http_get json_loads self disable_time s)
  = match fst (http_get (api_url obj +:+ "/admin/api.php")
                 (Some [("disable", PyNum disable_time);
                        ("auth", PyStr (api_key obj))])
                 None (net s)) with
    | Failed cls msg => Raise (TransportError cls msg)
    | Responded r =>
        if status_code r =? 200 then
          match json_loads (text r) with
          | Decoded _ => Ok true
          | Undecodable _ => Raise (ValueError "Invalid JSON response.")
          | Crashed c => Raise (crash_exn c)
          end
        else Ok false
    end.
Proof.
  intros Hself.
  rewrite (disable_adblocker_run _ _ self obj) by exact Hself. cbn [fst].
  rewrite (make_api_call_run _ _ self obj) by exact Hself.
  unfold call_outcome, disable_params.
  destruct (http_get _ _ _ _) as [[r|cls msg] n]; [|reflexivity].
  cbn [fst]. destruct (status_code r =? 200); [|reflexivity].
  destruct (json_loads (text r)) as [v|msg|[msg|msg]]; reflexivity.
Qed.

(** X2.  When the request fails in the transport, [make_api_call] raises
    the exception of the transport as it is, having made no other call
    into the library, and leaves the network as the failed request left
    it: nothing is sent a second time. *)
Theorem make_api_call_transport_failure
    (self : ref) (obj : API) (endpoint : string) (params headers : option dict)
    (s : State Net) (cls : transport_error_class) (msg : string) (n : Net) :
  heap s !! self = Some obj ->
  http_get (api_url obj +:+ endpoint) params headers (net s) = (Failed cls msg, n) ->
  make_api_call http_get json_loads self endpoint params headers s
  = (Raise (TransportError cls msg),
     mkState (heap s) n
       (log s ++ [EvGet (api_url obj +:+ endpoint) params headers])).
Proof.
  intros Hself Hget.
  rewrite (make_api_call_run _ _ self obj) by exact Hself.
  unfold call_outcome. rewrite Hget. reflexivity.
Qed.

(** X3.  One call is one round trip: after [make_api_call], and after
    [disable_adblocker], the network is in the state in which the one
    request left it, whatever the answer was. *)
Theorem one_round_trip_per_call
    (self : ref) (obj : API) (endpoint : string) (params headers : option dict)
    (disable_time : number) (s : State Net) :
  heap s !! self = Some obj ->
  net (snd (make_api_call http_get json_loads self endpoint params headers s))
  = snd (http_get (api_url obj +:+ endpoint) params headers (net s))
  /\ net (snd (disable_adblocker http_get json_loads self disable_time s))
     = snd (http_get (api_url obj +:+ "/admin/api.php")
              (Some [("disable", PyNum disable_time);
                     ("auth", PyStr (api_key obj))])
              None (net s)).
Proof.
  intros Hself. split.
  - rewrite (make_api_call_run _ _ self obj) by exact Hself.
    apply call_outcome_net.
  - rewrite (disable_adblocker_run _ _ self obj) by exact Hself. cbn [snd].
    rewrite (make_api_call_run _ _ self obj) by exact Hself.
    apply call_outcome_net.
Qed.

(** X4.  [disable_adblocker] never raises [HTTPError], on any object and
    in any state. *)
Theorem disable_adblocker_never_raises_HTTPError
    (self : ref) (disable_time : number) (s : State Net) (e : exn) :
  fst (disable_adblocker http_get json_loads self disable_time s) = Raise e ->
  isinstance_HTTPError e = false.
Proof.
  destruct (heap s !! self) as [obj|] eqn:Hself.
  - rewrite (disable_adblocker_run _ _ self obj) by exact Hself. cbn [fst].
    destruct (fst (make_api_call _ _ _ _ _ _ _)) as [v|e']; [discriminate|].
    cbn. destruct (isinstance_HTTPError e') eqn:He; [discriminate|].
    intros [= <-]. exact He.
  - rewrite disable_adblocker_uninitialised by exact Hself.
    intros [= <-]. reflexivity.
Qed.

(** X5.  On an initialised client [make_api_call] raises nothing but its
    own [HTTPError] (for a status other than 200, with its own message),
    its [ValueError] (for a 200 whose body the decoder reports as no
    JSON), another exception of the decoder (for a 200 on whose body the
    decoder fails otherwise), and the exceptions of the transport:
    neither the decoder's [JSONDecodeError] nor the [HTTPError] of
    [raise_for_status] comes out of it. *)
Theorem make_api_call_raises_only
    (self : ref) (obj : API) (endpoint : string) (params headers : option dict)
    (s : State Net) (e : exn) :
  heap s !! self = Some obj ->
  fst (make_api_call http_get json_loads self endpoint params headers s) = Raise e ->
  (exists r n,
      http_get (api_url obj +:+ endpoint) params headers (net s) = (Responded r, n)
      /\ status_code r <> 200
      /\ e = HTTPError ("API call failed with status code " +:+
                        str_of_int (status_code r) +:+ "."))
  \/ (exists r n msg,
      http_get (api_url obj +:+ endpoint) params headers (net s) = (Responded r, n)
      /\ status_code r = 200
      /\ json_loads (text r) = Undecodable msg
      /\ e = ValueError "Invalid JSON response.")
  \/ (exists r n c,
      http_get (api_url obj +:+ endpoint) params headers (net s) = (Responded r, n)
      /\ status_code r = 200
      /\ json_loads (text r) = Crashed c
      /\ e = crash_exn c)
  \/ (exists cls msg n,
      http_get (api_url obj +:+ endpoint) params headers (net s) = (Failed cls msg, n)
      /\ e = TransportError cls msg).
Proof.
  intros Hself.
  rewrite (make_api_call_run _ _ self obj) by exact Hself.
  unfold call_outcome.
  destruct (http_get _ _ _ _) as [[r|cls msg] n].
  - destruct (status_code r =? 200) eqn:Hst; cbn [fst].
    + apply Z.eqb_eq in Hst.
      destruct (json_loads (text r)) as [v|msg|c] eqn:Hjson; [discriminate| |];
        intros [= <-].
      * right. left. exists r, n, msg. auto.
      * right. right. left. exists r, n, c. auto.
    + intros [= <-]. left. exists r, n. apply Z.eqb_neq in Hst.
      repeat split. exact Hst.
  - cbn [fst]. intros [= <-]. right. right. right. exists cls, msg, n. auto.
Qed.

(** X6.  A status that is no error for [raise_for_status] is a failure
    for the client all the same unless it is 200: on 204 or 302, say,
    [make_api_call] raises [HTTPError] and [disable_adblocker] returns
    [False]. *)
Theorem status_other_than_200_is_failure
    (self : ref) (obj : API) (disable_time : number)
    (s : State Net) (r : Response) (n : Net) :
  heap s !! self = Some obj ->
  http_get (api_url obj +:+ "/admin/api.php")
    (Some [("disable", PyNum disable_time); ("auth", PyStr (api_key obj))])
    None (net s) = (Responded r, n) ->
  status_code r <> 200 ->
  status_code r < 400 \/ 600 <= status_code r ->
  raise_for_status r = Ok tt
  /\ fst (make_api_call http_get json_loads self "/admin/api.php"
            (Some [("disable", PyNum disable_time); ("auth", PyStr (api_key obj))])
            None s)
     = Raise (HTTPError ("API call failed with status code " +:+
                         str_of_int (status_code r) +:+ "."))
  /\ fst (disable_adblocker http_get json_loads self disable_time s) = Ok false.
Proof.
  intros Hself Hget Hst Hrange. split; [|split].
  - unfold raise_for_status, http_error_msg.
    destruct Hrange as [Hlt|Hge].
    + replace (400 <=? status_code r) with false by (symmetry; apply Z.leb_gt; lia).
      replace (500 <=? status_code r) with false by (symmetry; apply Z.leb_gt; lia).
      reflexivity.
    + replace (status_code r <? 500) with false by (symmetry; apply Z.ltb_ge; lia).
      replace (status_code r <? 600) with false by (symmetry; apply Z.ltb_ge; lia).
      rewrite !andb_false_r. reflexivity.
  - rewrite (make_api_call_run _ _ self obj) by exact Hself.
    unfold call_outcome. rewrite Hget.
    apply Z.eqb_neq in Hst. rewrite Hst. reflexivity.
  - rewrite (disable_adblocker_run _ _ self obj) by exact Hself. cbn [fst].
    rewrite (make_api_call_run _ _ self obj) by exact Hself.
    unfold call_outcome, disable_params.
    match goal with
    | |- context [http_get ?u ?p ?h ?w] =>
        replace (http_get u p h w) with (Responded r, n) by (symmetry; exact Hget)
    end.
    apply Z.eqb_neq in Hst. rewrite Hst. reflexivity.
Qed.

(** X16.  The calls that one [make_api_call] makes into the library:
    the request and, only when the answer has status 200,
    [raise_for_status] and then [json] on that response, once each. *)
Theorem make_api_call_library_calls
    (self : ref) (obj : API) (endpoint : string) (params headers : option dict)
    (s : State Net) :
  heap s !! self = Some obj ->
  log (snd (make_api_call http_get json_loads self endpoint params headers s))
  = log s
    ++ EvGet (api_url obj +:+ endpoint) params headers
       :: match fst (http_get (api_url obj +:+ endpoint) params headers (net s)) with
          | Responded r =>
              if status_code r =? 200 then [EvRaiseForStatus r; EvJson r] else []
          | Failed _ _ => []
          end.
Proof.
  intros Hself.
  rewrite (make_api_call_run _ _ self obj) by exact Hself.
  unfold call_outcome.
  destruct (http_get _ _ _ _) as [[r|cls msg] n]; [|reflexivity].
  cbn [fst]. destruct (status_code r =? 200); reflexivity.
Qed.

End ClientBehaviour.

(** ** The script *)

Section ScriptBehaviour.

Context {Net : Type}.
Variable http_get : string -> option dict -> option dict -> Net -> answer * Net.
Variable json_loads : string -> decoded.

(** The script is the call on a client just made. *)
Lemma main_run (url key : string) (s : State Net) :
  let hole := fresh (dom (heap s)) in
  let s0 := mkState (<[hole := mkAPI url key]> (heap s)) (net s) (log s) in
  heap s0 !! hole = Some (mkAPI url key)
  /\ main_py.main http_get json_loads url key s
     = (match fst (disable_adblocker http_get json_loads hole (Int 30) s0) with
        | Ok _ => Ok tt
        | Raise e => Raise e
        end,
        snd (disable_adblocker http_get json_loads hole (Int 30) s0)).
Proof.
  intros hole s0. split; [apply lookup_insert_eq|].
  unfold main_py.main, bind, new, bind, __init__, ret, main_py.disable_time.
  fold hole. fold s0.
  destruct (disable_adblocker _ _ _ _ _) as [[b|e] s1]; reflexivity.
Qed.

(** X7.  Run with both variables set, the script makes one client, at a
    reference no object had, with the URL and the key as its attributes,
    changes no object that was there, and sends one request: to the URL
    followed by "/admin/api.php", with [disable] 30 and [auth] the key;
    the network is left as [requests.get], asked once with these
    arguments, left it. *)
Theorem main_sends_one_request (url key : string) (s : State Net) :
  let hole := fresh (dom (heap s)) in
  let s' := snd (main_py.main http_get json_loads url key s) in
  heap s !! hole = None
  /\ heap s' = <[hole := mkAPI url key]> (heap s)
  /\ (forall other obj, heap s !! other = Some obj -> heap s' !! other = Some obj)
  /\ (exists evs,
      log s'
      = log s ++ EvGet (url +:+ "/admin/api.php")
                   (Some [("disable", PyNum (Int 30)); ("auth", PyStr key)]) None
                 :: evs
      /\ forallb (fun e => negb (is_get e)) evs = true)
  /\ net s'
     = snd (http_get (url +:+ "/admin/api.php")
              (Some [("disable", PyNum (Int 30)); ("auth", PyStr key)]) None
              (net s)).
Proof.
  intros hole s'.
  assert (Hfresh : heap s !! hole = None) by apply not_elem_of_dom, is_fresh.
  destruct (main_run url key s) as [Hhole Hrun]. fold hole in Hhole, Hrun.
  assert (Hheap : heap s' = <[hole := mkAPI url key]> (heap s)).
  { unfold s'. rewrite Hrun. cbn [snd]. rewrite disable_adblocker_heap.
    reflexivity. }
  split; [exact Hfresh|]. split; [exact Hheap|]. split; [|split].
  - intros other obj Hother. rewrite Hheap.
    rewrite lookup_insert_ne; [exact Hother|]. congruence.
  - unfold s'. rewrite Hrun. cbn [snd].
    rewrite (disable_adblocker_run _ _ hole (mkAPI url key)) by exact Hhole.
    cbn [snd].
    apply (make_api_call_log http_get json_loads hole (mkAPI url key)
             "/admin/api.php" _ None _ Hhole).
  - unfold s'. rewrite Hrun. cbn [snd].
    rewrite (disable_adblocker_run _ _ hole (mkAPI url key)) by exact Hhole.
    cbn [snd].
    apply (make_api_call_net http_get json_loads hole (mkAPI url key)
             "/admin/api.php" _ None _ Hhole).
Qed.

(** X8.  The script ends without an exception whenever the network gave
    an answer that is not a 200 with a body the decoder fails on: on a
    refusal (403, say) as on success, so its ending tells nothing of
    whether blocking was disabled.  It ends with the exception of the
    transport when the request failed, with [ValueError] on a 200 whose
    body the decoder reports as no JSON, and with any other exception of
    the decoder as it is. *)
Theorem main_ends_by_answer (url key : string) (s : State Net) :
  fst (main_py.main http_get json_loads url key s)
  = match fst (http_get (url +:+ "/admin/api.php")
                 (Some [("disable", PyNum (Int 30)); ("auth", PyStr key)])
                 None (net s)) with
    | Failed cls msg => Raise (TransportError cls msg)
    | Responded r =>
        if status_code r =? 200 then
          match json_loads (text r) with
          | Decoded _ => Ok tt
          | Undecodable _ => Raise (ValueError "Invalid JSON response.")
          | Crashed c => Raise (crash_exn c)
          end
        else Ok tt
    end.
Proof.
  destruct (main_run url key s) as [Hhole Hrun]. rewrite Hrun. cbn [fst].
  rewrite (disable_adblocker_run _ _ _ (mkAPI url key)) by exact Hhole.
  cbn [fst].
  rewrite (make_api_call_run _ _ _ (mkAPI url key)) by exact Hhole.
  unfold call_outcome, disable_params. cbn [net api_url api_key].
  destruct (http_get _ _ _ _) as [[r|cls msg] n]; [|reflexivity].
  cbn [fst]. destruct (status_code r =? 200); [|reflexivity].
  destruct (json_loads (text r)) as [v|msg|[msg|msg]]; reflexivity.
Qed.

End ScriptBehaviour.

(* ===================================================================== *)
(** * Further properties of the validators *)
(* ===================================================================== *)

(** ** Strings *)

Lemma len_nonneg (s : string) : 0 <= len s.
Proof. unfold len. lia. Qed.

Lemma len_String (c : ascii) (s : string) : len (String c s) = len s + 1.
Proof. unfold len. cbn [String.length]. lia. Qed.

Lemma find_at_absent (c : ascii) (s : string) (k : Z) :
  contains c s = false -> find_at c s k = -1.
Proof.
  revert k. induction s as [|d s IH]; intros k; cbn; [reflexivity|].
  destruct (Ascii.eqb c d); [discriminate|]. intros H. apply IH, H.
Qed.

Lemma find_at_found (c : ascii) (s : string) (k : Z) :
  0 <= find_at c s k -> contains c s = true.
Proof.
  revert k. induction s as [|d s IH]; intros k; cbn; [lia|].
  destruct (Ascii.eqb c d); [reflexivity|]. apply IH.
Qed.

Lemma getitem_0_found (c : ascii) (s : string) :
  0 < find c s -> exists d, getitem s 0 = Ok d.
Proof.
  destruct s as [|d s]; cbn; [lia|]. intros _. exists d. reflexivity.
Qed.

Lemma contains_substring (c : ascii) (s : string) (n m : nat) :
  contains c (String.substring n m s) = true -> contains c s = true.
Proof.
  revert n m. induction s as [|d s IH]; intros [|n] [|m]; cbn;
    try discriminate; try (intros H; exact H).
  - destruct (Ascii.eqb c d); [reflexivity|]. apply IH.
  - intros H. destruct (Ascii.eqb c d); [reflexivity|]. apply (IH n 0%nat), H.
  - intros H. destruct (Ascii.eqb c d); [reflexivity|]. apply (IH n (S m)), H.
Qed.

Lemma contains_slice (c : ascii) (s : string) (lo hi : option Z) :
  contains c (slice s lo hi) = true -> contains c s = true.
Proof. unfold slice. apply contains_substring. Qed.

Lemma contains_lstrip (c : ascii) (chars s : string) :
  contains c (lstrip chars s) = true -> contains c s = true.
Proof.
  induction s as [|d s IH]; cbn; [discriminate|].
  destruct (contains d chars).
  - intros H. rewrite (IH H). destruct (Ascii.eqb c d); reflexivity.
  - cbn. intros H. exact H.
Qed.

Lemma contains_remove (c b : ascii) (s : string) :
  contains c (remove b s) = true -> contains c s = true.
Proof.
  induction s as [|d s IH]; cbn; [discriminate|].
  destruct (Ascii.eqb b d).
  - intros H. rewrite (IH H). destruct (Ascii.eqb c d); reflexivity.
  - cbn. destruct (Ascii.eqb c d); [reflexivity|]. exact IH.
Qed.

Lemma str_isascii_contains (s : string) :
  str_isascii s = true <-> forall c, contains c s = true -> isascii c = true.
Proof.
  induction s as [|d s IH]; cbn.
  - split; [discriminate|reflexivity].
  - rewrite andb_true_iff, IH. split.
    + intros [Hd Hs] c. destruct (Ascii.eqb_spec c d) as [->|_]; auto.
    + intros H. split.
      * apply H. rewrite Ascii.eqb_refl. reflexivity.
      * intros c Hc. apply H. rewrite Hc. destruct (Ascii.eqb c d); reflexivity.
Qed.

(** The characters of [t] are characters of [s]. *)
Lemma str_isascii_sub (s t : string) :
  (forall c, contains c t = true -> contains c s = true) ->
  str_isascii s = true -> str_isascii t = true.
Proof.
  intros Hsub Hs. apply str_isascii_contains. intros c Hc.
  apply (proj1 (str_isascii_contains s) Hs), Hsub, Hc.
Qed.

Lemma contains_false_sub (c : ascii) (s t : string) :
  (forall c, contains c t = true -> contains c s = true) ->
  contains c s = false -> contains c t = false.
Proof.
  intros Hsub Hs. destruct (contains c t) eqn:Ht; [|reflexivity].
  rewrite (Hsub c Ht) in Hs. discriminate.
Qed.

(** Case analysis on whatever the goal branches on. *)
Ltac case_all :=
  repeat match goal with
         | |- context [match ?p with _ => _ end] => destruct p eqn:?
         end.

(** The same, from the inside: on a scrutinee that branches on nothing. *)
Ltac case_inner :=
  repeat match goal with
         | |- context [match ?p with _ => _ end] =>
             lazymatch p with
             | context [match _ with _ => _ end] => fail
             | _ => destruct p eqn:?
             end
         end.

Section ValidatorBehaviour.

Variable ip_address : string -> urllib_parse.ip_address_result.
Variable normalize_NFKC : string -> string.

Lemma _checknetloc_raises (netloc : string) (e : exn) :
  urllib_parse._checknetloc normalize_NFKC netloc = Raise e ->
  exists msg, e = ValueError msg.
Proof.
  unfold urllib_parse._checknetloc.
  repeat match goal with
         | |- context [if ?b then _ else _] => destruct b
         end; try discriminate.
  intros [= <-]. eexists. reflexivity.
Qed.

Lemma _check_bracketed_host_raises (hostname : string) (e : exn) :
  urllib_parse._check_bracketed_host ip_address hostname = Raise e ->
  exists msg, e = ValueError msg.
Proof.
  unfold urllib_parse._check_bracketed_host.
  destruct (startswith "v" hostname).
  - destruct (negb _); [|discriminate]. intros [= <-]. eexists. reflexivity.
  - destruct (ip_address hostname); try discriminate;
      intros [= <-]; eexists; reflexivity.
Qed.

Lemma _check_bracketed_netloc_raises (netloc : string) (e : exn) :
  urllib_parse._check_bracketed_netloc ip_address netloc = Raise e ->
  exists msg, e = ValueError msg.
Proof.
  unfold urllib_parse._check_bracketed_netloc.
  destruct (partition "[" _) as [[before have] bracketed].
  destruct have.
  - destruct (truthy before); [intros [= <-]; eexists; reflexivity|].
    destruct (partition "]" bracketed) as [[hostname x] port].
    destruct (_ && _); [intros [= <-]; eexists; reflexivity|].
    apply _check_bracketed_host_raises.
  - destruct (partition ":" _) as [[hostname x] port].
    apply _check_bracketed_host_raises.
Qed.

Lemma urlsplit_raises (url scheme : string) (allow_fragments : bool) (e : exn) :
  urllib_parse.urlsplit ip_address normalize_NFKC url scheme allow_fragments
  = Raise e ->
  exists msg, e = ValueError msg.
Proof.
  unfold urllib_parse.urlsplit.
  set (url2 := fold_left _ _ (lstrip _ url)).
  set (scheme2 := fold_left _ _ (strip _ scheme)).
  assert (Halpha : exists b,
             (if 0 <? find ":" url2
              then rbind (getitem url2 0) (fun c => Ok (isascii c && isalpha c))
              else Ok false) = Ok b).
  { destruct (0 <? find ":" url2) eqn:Hi; [|eauto].
    apply Z.ltb_lt in Hi. destruct (getitem_0_found _ _ Hi) as [d ->].
    cbn. eauto. }
  destruct Halpha as [b ->]. cbn [rbind].
  destruct (if b then _ else _) as [scheme0 url0].
  unfold rbind.
  case_all; try discriminate;
    try (intros [= <-]; eauto using _checknetloc_raises).
  repeat (match goal with H : _ = Raise _ |- _ => revert H end;
          case_all; try discriminate; try (intros [= <-]; eauto)).
  apply _check_bracketed_netloc_raises.
Qed.

Lemma _checknetloc_ascii (netloc : string) :
  str_isascii netloc = true ->
  urllib_parse._checknetloc normalize_NFKC netloc = Ok tt.
Proof.
  intros H. unfold urllib_parse._checknetloc. rewrite H, orb_true_r.
  reflexivity.
Qed.

Lemma _splitnetloc_sub (url : string) (start : Z) (netloc rest : string) :
  urllib_parse._splitnetloc url start = (netloc, rest) ->
  forall c, contains c netloc = true -> contains c url = true.
Proof.
  unfold urllib_parse._splitnetloc. intros [= <- _] c. apply contains_slice.
Qed.

(** What a result of [urlsplit] owes to the string, and what an exception
    of it does. *)
Lemma urlsplit_inspect (u : string) (allow_fragments : bool) :
  match urllib_parse.urlsplit ip_address normalize_NFKC u "" allow_fragments with
  | Ok r =>
      (forall c, contains c (urllib_parse.split_netloc r) = true ->
                 contains c u = true)
      /\ (urllib_parse.split_netloc r <> "" -> contains "/" u = true)
      /\ (urllib_parse.split_scheme r <> "" -> contains ":" u = true)
  | Raise e =>
      contains "[" u = true \/ contains "]" u = true \/ str_isascii u = false
  end.
Proof.
  unfold urllib_parse.urlsplit.
  set (url2 := fold_left _ _ (lstrip _ u)).
  assert (Hsub2 : forall c, contains c url2 = true -> contains c u = true).
  { intros c Hc. subst url2. cbn in Hc.
    repeat apply contains_remove in Hc. apply contains_lstrip in Hc. exact Hc. }
  change (fold_left _ _ (strip _ "")) with "".
  assert (Halpha : exists b,
             (if 0 <? find ":" url2
              then rbind (getitem url2 0) (fun c => Ok (isascii c && isalpha c))
              else Ok false) = Ok b
             /\ (b = true -> contains ":" u = true)).
  { destruct (0 <? find ":" url2) eqn:Hi.
    - apply Z.ltb_lt in Hi. destruct (getitem_0_found _ _ Hi) as [d ->].
      cbn. eexists. split; [reflexivity|]. intros _.
      apply Hsub2, (find_at_found _ _ 0). unfold find in Hi. lia.
    - exists false. split; [reflexivity|discriminate]. }
  destruct Halpha as (b & -> & Hb). cbn [rbind].
  set (q := if b then _ else _).
  assert (Hq : (forall c, contains c (snd q) = true -> contains c u = true)
               /\ (fst q <> "" -> contains ":" u = true)).
  { subst q. destruct b; [destruct (forallb _ _)|]; cbn [fst snd]; split;
      try congruence; auto.
    intros c Hc. apply Hsub2. apply contains_slice in Hc. exact Hc. }
  destruct q as [scheme0 url0]. cbn [fst snd] in Hq. destruct Hq as [Hsub0 Hscheme].
  unfold rbind.
  destruct (String.eqb (slice url0 None (Some 2)) "//") eqn:Hss.
  - assert (Hslash : contains "/" u = true).
    { apply String.eqb_eq in Hss. apply Hsub0.
      apply (contains_slice _ _ None (Some 2)). rewrite Hss. reflexivity. }
    destruct (urllib_parse._splitnetloc url0 2) as [netloc url1] eqn:Hsplit.
    assert (Hnl : forall c, contains c netloc = true -> contains c u = true).
    { intros c Hc. apply Hsub0. apply (_splitnetloc_sub _ _ _ _ Hsplit c Hc). }
    destruct (_ || _) eqn:Hbr.
    + apply orb_true_iff in Hbr.
      destruct Hbr as [H|H]; apply andb_true_iff in H; destruct H as [H _];
        apply Hnl in H; auto.
    + assert (Hend : forall e,
                 urllib_parse._checknetloc normalize_NFKC netloc = Raise e ->
                 str_isascii u = false).
      { intros e He. destruct (str_isascii u) eqn:Hascii; [|reflexivity].
        rewrite _checknetloc_ascii in He
          by (apply (str_isascii_sub u); assumption).
        discriminate. }
      destruct (contains "[" netloc && contains "]" netloc) eqn:Hbb.
      * apply andb_true_iff in Hbb. destruct Hbb as [Hopen _]. apply Hnl in Hopen.
        destruct (urllib_parse._check_bracketed_netloc _ _); [|auto].
        case_inner; cbn; eauto.
      * case_inner; cbn; eauto.
  - case_inner; cbn; try discriminate.
    all: repeat split; try discriminate; try congruence; auto.
Qed.

(** [urlparse] returns when [urlsplit] does, with its scheme and network
    location, and raises what [urlsplit] raises. *)
Lemma urlparse_urlsplit (u scheme : string) (allow_fragments : bool) :
  match urllib_parse.urlsplit ip_address normalize_NFKC u scheme allow_fragments with
  | Ok r =>
      exists p,
        urllib_parse.urlparse ip_address normalize_NFKC u scheme allow_fragments
        = Ok p
        /\ urllib_parse.scheme p = urllib_parse.split_scheme r
        /\ urllib_parse.netloc p = urllib_parse.split_netloc r
  | Raise e =>
      urllib_parse.urlparse ip_address normalize_NFKC u scheme allow_fragments
      = Raise e
  end.
Proof.
  unfold urllib_parse.urlparse.
  destruct (urllib_parse.urlsplit _ _ _ _ _) as [[sch nl pa qu fr]|e];
    [|reflexivity].
  cbn [rbind].
  destruct (existsb _ _ && contains _ _);
    [destruct (urllib_parse._splitparams pa)|]; eexists; repeat split.
Qed.

(** X9.  [validate_api_url] raises nothing but [ValueError]. *)
Theorem validate_api_url_raises_only_ValueError (u : string) (e : exn) :
  validate_api_url ip_address normalize_NFKC u = Raise e ->
  exists msg, e = ValueError msg.
Proof.
  rewrite validate_api_url_run.
  pose proof (urlparse_urlsplit u "" true) as Hp.
  destruct (urllib_parse.urlsplit _ _ u "" true) as [r|e'] eqn:Hsplit.
  - destruct Hp as (p & -> & _). discriminate.
  - rewrite Hp. intros [= <-]. apply (urlsplit_raises _ _ _ _ Hsplit).
Qed.

(** X10.  On a string of ASCII characters with no square bracket in it,
    [validate_api_url] returns a boolean: it does not raise. *)
Theorem validate_api_url_returns_without_brackets (u : string) :
  str_isascii u = true ->
  contains "[" u = false ->
  contains "]" u = false ->
  exists b, validate_api_url ip_address normalize_NFKC u = Ok b.
Proof.
  intros Hascii Hopen Hclose. rewrite validate_api_url_run.
  pose proof (urlparse_urlsplit u "" true) as Hp.
  pose proof (urlsplit_inspect u true) as Hi.
  destruct (urllib_parse.urlsplit _ _ u "" true) as [r|e'].
  - destruct Hp as (p & -> & _). eauto.
  - destruct Hi as [H|[H|H]]; congruence.
Qed.

(** X11.  A string that [validate_api_url] accepts has a colon and a
    slash in it. *)
Theorem validate_api_url_needs_colon_and_slash (u : string) :
  validate_api_url ip_address normalize_NFKC u = Ok true ->
  contains ":" u = true /\ contains "/" u = true.
Proof.
  rewrite validate_api_url_run.
  pose proof (urlparse_urlsplit u "" true) as Hp.
  pose proof (urlsplit_inspect u true) as Hi.
  destruct (urllib_parse.urlsplit _ _ u "" true) as [r|e'].
  - destruct Hp as (p & -> & Hs & Hn). intros [= Hall].
    apply (proj1 (all_pair _ _)) in Hall. destruct Hall as [Hsch Hnl].
    rewrite Hs in Hsch. rewrite Hn in Hnl.
    destruct Hi as (_ & Hslash & Hcolon). auto.
  - rewrite Hp. discriminate.
Qed.

End ValidatorBehaviour.

(** ** Strings put together *)

Lemma append_nil (b : string) : "" +:+ b = b.
Proof. reflexivity. Qed.

Lemma append_cons (d : ascii) (a b : string) :
  String d a +:+ b = String d (a +:+ b).
Proof. reflexivity. Qed.

Lemma append_assoc (a b c : string) : (a +:+ b) +:+ c = a +:+ (b +:+ c).
Proof.
  induction a as [|d a IH]; [reflexivity|].
  rewrite !append_cons, IH. reflexivity.
Qed.

Lemma len_append (a b : string) : len (a +:+ b) = len a + len b.
Proof.
  induction a as [|d a IH].
  - rewrite append_nil. unfold len at 2. cbn. lia.
  - rewrite append_cons, !len_String, IH. lia.
Qed.

Lemma contains_append (c : ascii) (a b : string) :
  contains c (a +:+ b) = contains c a || contains c b.
Proof.
  induction a as [|d a IH]; [reflexivity|].
  rewrite append_cons. cbn.
  destruct (Ascii.eqb c d); [reflexivity|]. exact IH.
Qed.

Lemma remove_absent (b : ascii) (s : string) :
  contains b s = false -> remove b s = s.
Proof.
  induction s as [|d s IH]; cbn; [reflexivity|].
  destruct (Ascii.eqb b d); [discriminate|]. intros H. rewrite (IH H). reflexivity.
Qed.

Lemma remove_append (b : ascii) (x y : string) :
  remove b (x +:+ y) = remove b x +:+ remove b y.
Proof.
  induction x as [|d x IH]; [reflexivity|].
  rewrite append_cons. cbn.
  destruct (Ascii.eqb b d); rewrite IH; reflexivity.
Qed.

Lemma find_at_append (c : ascii) (x y : string) (k : Z) :
  contains c x = false -> find_at c (x +:+ y) k = find_at c y (k + len x).
Proof.
  revert k. induction x as [|d x IH]; intros k.
  - intros _. rewrite append_nil. f_equal. unfold len. cbn. lia.
  - rewrite append_cons. cbn.
    destruct (Ascii.eqb c d); [discriminate|]. intros H.
    rewrite (IH _ H), len_String. f_equal. lia.
Qed.

Lemma substring_all (s : string) : String.substring 0 (String.length s) s = s.
Proof. induction s as [|d s IH]; cbn; [reflexivity|]. rewrite IH. reflexivity. Qed.

Lemma substring_prefix (x y : string) :
  String.substring 0 (String.length x) (x +:+ y) = x.
Proof.
  induction x as [|d x IH].
  - rewrite append_nil. destruct y; reflexivity.
  - rewrite append_cons. cbn. rewrite IH. reflexivity.
Qed.

Lemma substring_suffix (x y : string) (m : nat) :
  String.substring (String.length x) m (x +:+ y) = String.substring 0 m y.
Proof.
  induction x as [|d x IH]; [reflexivity|]. rewrite append_cons. exact IH.
Qed.

Lemma clip_inside (n i : Z) : 0 <= i <= n -> clip n i = i.
Proof. intros H. unfold clip. destruct (Z.ltb_spec i 0); lia. Qed.

(** [(x + y)[:len(x)] == x] *)
Lemma slice_prefix (x y : string) : slice (x +:+ y) None (Some (len x)) = x.
Proof.
  unfold slice. rewrite clip_inside
    by (rewrite len_append; pose proof (len_nonneg x); pose proof (len_nonneg y); lia).
  rewrite Z.sub_0_r. unfold len. rewrite Nat2Z.id. apply substring_prefix.
Qed.

(** [(x + y)[len(x):] == y] *)
Lemma slice_suffix (x y : string) : slice (x +:+ y) (Some (len x)) None = y.
Proof.
  unfold slice. rewrite clip_inside
    by (rewrite len_append; pose proof (len_nonneg x); pose proof (len_nonneg y); lia).
  rewrite len_append. replace (len x + len y - len x) with (len y) by lia.
  unfold len. rewrite !Nat2Z.id, substring_suffix. apply substring_all.
Qed.

(** [s[lo:len(s)] == s[lo:]] *)
Lemma slice_to_len (s : string) (lo : option Z) :
  slice s lo (Some (len s)) = slice s lo None.
Proof.
  unfold slice. rewrite (clip_inside (len s) (len s))
    by (pose proof (len_nonneg s); lia).
  reflexivity.
Qed.

(** [s[len(s):] == ""] *)
Lemma slice_from_end (s : string) : slice s (Some (len s)) None = "".
Proof.
  unfold slice. rewrite clip_inside by (pose proof (len_nonneg s); lia).
  rewrite Z.sub_diag. cbn [Z.to_nat]. unfold len. rewrite Nat2Z.id.
  induction s as [|d s IH]; cbn; [reflexivity|]. exact IH.
Qed.

(** A character that is none of [chars] is in no string made of [chars]. *)
Lemma contains_outside (b : ascii) (chars s : string) :
  forallb (fun c => contains c chars) (list_ascii_of_string s) = true ->
  contains b chars = false ->
  contains b s = false.
Proof.
  intros Hs Hb. induction s as [|d s IH]; cbn in *; [reflexivity|].
  apply andb_true_iff in Hs. destruct Hs as [Hd Hs].
  destruct (Ascii.eqb_spec b d) as [->|_]; [congruence|]. apply IH, Hs.
Qed.

Lemma find_at_lower (c : ascii) (s : string) (k : Z) :
  find_at c s k = -1 \/ k <= find_at c s k.
Proof.
  revert k. induction s as [|d s IH]; intros k; cbn; [left; reflexivity|].
  destruct (Ascii.eqb c d); [right; lia|].
  destruct (IH (k + 1)) as [H|H]; [left; exact H|right; lia].
Qed.

(** [(x + y + z)[len(x):len(x) + len(y)] == y] *)
Lemma slice_mid (x y z : string) :
  slice (x +:+ y +:+ z) (Some (len x)) (Some (len x + len y)) = y.
Proof.
  pose proof (len_nonneg x). pose proof (len_nonneg y). pose proof (len_nonneg z).
  unfold slice. rewrite !clip_inside by (rewrite !len_append; lia).
  replace (len x + len y - len x) with (len y) by lia.
  unfold len. rewrite !Nat2Z.id, substring_suffix. apply substring_prefix.
Qed.

(** The three characters that end a network location. *)
Lemma _splitnetloc_host (h t : string) :
  contains "/" h = false -> contains "?" h = false -> contains "#" h = false ->
  t = "" \/ (exists d t0, t = String d t0 /\ (d = "/" \/ d = "?" \/ d = "#")%char) ->
  urllib_parse._splitnetloc ("//" +:+ h +:+ t) 2 = (h, t).
Proof.
  intros Hslash Hquery Hhash Ht.
  pose proof (len_nonneg h) as Hh. pose proof (len_nonneg t) as Hlt.
  assert (Hlen : len ("//" +:+ h +:+ t) = 2 + len h + len t).
  { rewrite !len_append. change (len "//") with 2. lia. }
  assert (Hfind : forall c, contains c h = false ->
             find_from c ("//" +:+ h +:+ t) 2 = find_at c t (2 + len h)).
  { intros c Hc. unfold find_from.
    rewrite clip_inside by lia.
    change 2 with (len "//") at 1. rewrite slice_suffix.
    rewrite find_at_append by exact Hc. reflexivity. }
  unfold urllib_parse._splitnetloc. cbn [fold_left].
  rewrite !Hfind by assumption.
  set (m := 2 + len h).
  assert (Hdelim :
    (let d1 := if 0 <=? find_at "/" t m
               then Z.min (len ("//" +:+ h +:+ t)) (find_at "/" t m)
               else len ("//" +:+ h +:+ t) in
     let d2 := if 0 <=? find_at "?" t m then Z.min d1 (find_at "?" t m) else d1 in
     if 0 <=? find_at "#" t m then Z.min d2 (find_at "#" t m) else d2) = m).
  { cbv zeta.
    pose proof (find_at_lower "/" t m) as H1.
    pose proof (find_at_lower "?" t m) as H2.
    pose proof (find_at_lower "#" t m) as H3.
    assert (Hhit : t = "" \/ find_at "/" t m = m \/ find_at "?" t m = m
                   \/ find_at "#" t m = m).
    { destruct Ht as [Ht|(d & t0 & Ht & Hd)]; [left; exact Ht|]. right.
      subst t. destruct Hd as [Hd|[Hd|Hd]]; subst d; cbn; auto. }
    assert (Hempty : t = "" -> len t = 0) by (intros ->; reflexivity).
    destruct (Z.leb_spec 0 (find_at "/" t m)),
             (Z.leb_spec 0 (find_at "?" t m)),
             (Z.leb_spec 0 (find_at "#" t m));
      destruct Hhit as [He|[He|[He|He]]]; try apply Hempty in He; lia. }
  cbv zeta in Hdelim. rewrite Hdelim. subst m.
  f_equal.
  - change 2 with (len "//") at 1 2. apply slice_mid.
  - replace (2 + len h) with (len ("//" +:+ h))
      by (rewrite len_append; change (len "//") with 2; lia).
    rewrite <- append_assoc. apply slice_suffix.
Qed.

Section AcceptedURLs.

Variable ip_address : string -> urllib_parse.ip_address_result.
Variable normalize_NFKC : string -> string.

Lemma remove_unsafe_append (x y : string) :
  fold_left (fun u b => remove b u) urllib_parse._UNSAFE_URL_BYTES_TO_REMOVE
    (x +:+ y)
  = fold_left (fun u b => remove b u) urllib_parse._UNSAFE_URL_BYTES_TO_REMOVE x
    +:+ fold_left (fun u b => remove b u) urllib_parse._UNSAFE_URL_BYTES_TO_REMOVE y.
Proof. cbn. rewrite !remove_append. reflexivity. Qed.

Lemma remove_unsafe_absent (x : string) :
  contains "009" x = false -> contains "013" x = false ->
  contains "010" x = false ->
  fold_left (fun u b => remove b u) urllib_parse._UNSAFE_URL_BYTES_TO_REMOVE x = x.
Proof.
  intros H1 H2 H3. cbn.
  rewrite (remove_absent _ x H1), (remove_absent _ x H2), (remove_absent _ x H3).
  reflexivity.
Qed.

(** Removing tabs and line breaks leaves a tail that starts with a
    delimiter starting with it. *)
Lemma remove_unsafe_tail (t : string) :
  t = "" \/ (exists d t0, t = String d t0 /\ (d = "/" \/ d = "?" \/ d = "#")%char) ->
  let t' := fold_left (fun u b => remove b u)
              urllib_parse._UNSAFE_URL_BYTES_TO_REMOVE t in
  t' = "" \/ (exists d t0, t' = String d t0 /\ (d = "/" \/ d = "?" \/ d = "#")%char).
Proof.
  intros [Ht|(d & t0 & Ht & Hd)]; subst t; [left; reflexivity|]. right.
  destruct Hd as [Hd|[Hd|Hd]]; subst d; cbn; eexists _, _; split; eauto.
Qed.

(** [urlsplit] on a scheme, "://", a host, and a tail that is empty or
    starts where a path, a query or a fragment does. *)
Lemma urlsplit_scheme_host (c0 : ascii) (rest h t : string) :
  isascii c0 && isalpha c0 = true ->
  forallb (fun c => contains c urllib_parse.scheme_chars)
    (list_ascii_of_string (String c0 rest)) = true ->
  str_isascii h = true ->
  forallb (fun c => negb (contains c h))
    ["/"; "?"; "#"; "["; "]"; "009"; "013"; "010"]%char = true ->
  t = "" \/ (exists d t0, t = String d t0 /\ (d = "/" \/ d = "?" \/ d = "#")%char) ->
  exists r,
    urllib_parse.urlsplit ip_address normalize_NFKC
      (String c0 rest +:+ "://" +:+ h +:+ t) "" true = Ok r
    /\ urllib_parse.split_scheme r = lower (String c0 rest)
    /\ urllib_parse.split_netloc r = h.
Proof.
  intros Hc0 Hsch Hascii Hhost Ht.
  set (s := String c0 rest) in *.
  cbn [forallb] in Hhost. rewrite !andb_true_iff, !negb_true_iff in Hhost.
  destruct Hhost as (Hslash & Hquery & Hhash & Hopen & Hclose & Htab & Hcr & Hlf & _).
  assert (Hout : forall b, contains b urllib_parse.scheme_chars = false ->
                           contains b s = false)
    by (intros b; apply contains_outside, Hsch).
  pose proof (remove_unsafe_tail t Ht) as Ht'. cbv zeta in Ht'.
  set (t' := fold_left _ _ t) in Ht'.
  unfold urllib_parse.urlsplit.
  change (fold_left _ _ (strip _ "")) with "".
  (* nothing is stripped in front of a letter *)
  assert (Hl : lstrip urllib_parse._WHATWG_C0_CONTROL_OR_SPACE
                 (s +:+ "://" +:+ h +:+ t) = s +:+ "://" +:+ h +:+ t).
  { subst s. rewrite append_cons. cbn [lstrip].
    assert (Hc : contains c0 urllib_parse._WHATWG_C0_CONTROL_OR_SPACE = false).
    { clear -Hc0. destruct c0 as [[] [] [] [] [] [] [] []];
        vm_compute in Hc0 |- *; congruence. }
    rewrite Hc. reflexivity. }
  rewrite Hl.
  (* tabs and line breaks go from the tail only *)
  assert (Hr : fold_left (fun u b => remove b u)
                 urllib_parse._UNSAFE_URL_BYTES_TO_REMOVE
                 (s +:+ "://" +:+ h +:+ t)
               = s +:+ "://" +:+ h +:+ t').
  { rewrite !remove_unsafe_append.
    rewrite (remove_unsafe_absent s) by (apply Hout; reflexivity).
    rewrite (remove_unsafe_absent h) by assumption.
    reflexivity. }
  rewrite Hr. clear Hl Hr.
  (* the first colon is the one after the scheme *)
  assert (Hfind : find ":" (s +:+ "://" +:+ h +:+ t') = len s).
  { unfold find. rewrite find_at_append by (apply Hout; reflexivity).
    reflexivity. }
  rewrite Hfind.
  assert (Hpos : (0 <? len s) = true).
  { apply Z.ltb_lt. subst s. rewrite len_String. pose proof (len_nonneg rest). lia. }
  rewrite Hpos.
  change (getitem (s +:+ "://" +:+ h +:+ t') 0) with (Ok (A:=ascii) c0).
  cbn [rbind]. rewrite Hc0.
  rewrite slice_prefix, Hsch.
  assert (Hrest : slice (s +:+ "://" +:+ h +:+ t') (Some (len s + 1)) None
                  = "//" +:+ h +:+ t').
  { change (s +:+ "://" +:+ h +:+ t') with (s +:+ ":" +:+ "//" +:+ h +:+ t').
    rewrite <- (append_assoc s ":").
    replace (len s + 1) with (len (s +:+ ":"))
      by (rewrite len_append; reflexivity).
    apply slice_suffix. }
  rewrite Hrest.
  change 2 with (len "//") at 1. rewrite slice_prefix. change (len "//") with 2.
  cbn [String.eqb Ascii.eqb Bool.eqb].
  rewrite (_splitnetloc_host h t') by assumption.
  rewrite Hopen, Hclose. cbn [andb orb negb rbind].
  rewrite (_checknetloc_ascii normalize_NFKC h Hascii).
  case_inner; eexists; repeat split.
Qed.

(** X12.  A scheme (a letter, then letters, digits, "+", "-" or "."),
    "://", a host that is not empty, made of ASCII characters and free of
    "/", "?", "#", square brackets, tabs and line breaks, and then
    nothing or anything that starts with "/", "?" or "#":
    [validate_api_url] accepts every such string, whatever the scheme. *)
Theorem validate_api_url_accepts_scheme_and_host (c0 : ascii) (rest h t : string) :
  isascii c0 && isalpha c0 = true ->
  forallb (fun c => contains c urllib_parse.scheme_chars)
    (list_ascii_of_string (String c0 rest)) = true ->
  h <> "" ->
  str_isascii h = true ->
  forallb (fun c => negb (contains c h))
    ["/"; "?"; "#"; "["; "]"; "009"; "013"; "010"]%char = true ->
  t = "" \/ (exists d t0, t = String d t0 /\ (d = "/" \/ d = "?" \/ d = "#")%char) ->
  validate_api_url ip_address normalize_NFKC
    (String c0 rest +:+ "://" +:+ h +:+ t) = Ok true.
Proof.
  intros Hc0 Hsch Hne Hascii Hhost Ht.
  destruct (urlsplit_scheme_host c0 rest h t Hc0 Hsch Hascii Hhost Ht)
    as (r & Hsplit & Hscheme & Hnetloc).
  rewrite validate_api_url_run.
  pose proof (urlparse_urlsplit ip_address normalize_NFKC
                (String c0 rest +:+ "://" +:+ h +:+ t) "" true) as Hp.
  rewrite Hsplit in Hp. destruct Hp as (p & -> & Hs & Hn).
  f_equal. apply all_pair. rewrite Hs, Hn, Hscheme, Hnetloc.
  split; [discriminate|exact Hne].
Qed.

End AcceptedURLs.

(** ** What the parser drops before it looks *)

Lemma unsafe_in_c0 (b : ascii) :
  In b urllib_parse._UNSAFE_URL_BYTES_TO_REMOVE ->
  contains b urllib_parse._WHATWG_C0_CONTROL_OR_SPACE = true.
Proof. intros [<-|[<-|[<-|[]]]]; reflexivity. Qed.

Lemma remove_unsafe_cons (b : ascii) (u : string) :
  In b urllib_parse._UNSAFE_URL_BYTES_TO_REMOVE ->
  fold_left (fun u b => remove b u) urllib_parse._UNSAFE_URL_BYTES_TO_REMOVE
    (String b u)
  = fold_left (fun u b => remove b u) urllib_parse._UNSAFE_URL_BYTES_TO_REMOVE u.
Proof. intros [<-|[<-|[<-|[]]]]; reflexivity. Qed.

(** The string [urlsplit] works on: without the blanks in front, and
    without tabs and line breaks. *)
Lemma cleaned_without_unsafe (b : ascii) (a u : string) :
  In b urllib_parse._UNSAFE_URL_BYTES_TO_REMOVE ->
  fold_left (fun u b => remove b u) urllib_parse._UNSAFE_URL_BYTES_TO_REMOVE
    (lstrip urllib_parse._WHATWG_C0_CONTROL_OR_SPACE (a +:+ String b u))
  = fold_left (fun u b => remove b u) urllib_parse._UNSAFE_URL_BYTES_TO_REMOVE
      (lstrip urllib_parse._WHATWG_C0_CONTROL_OR_SPACE (a +:+ u)).
Proof.
  intros Hb. induction a as [|d a IH].
  - rewrite !append_nil. cbn [lstrip]. rewrite (unsafe_in_c0 b Hb). reflexivity.
  - rewrite !append_cons. cbn [lstrip].
    destruct (contains d urllib_parse._WHATWG_C0_CONTROL_OR_SPACE); [exact IH|].
    rewrite <- !append_cons, !remove_unsafe_append, (remove_unsafe_cons b u Hb).
    reflexivity.
Qed.

Section Dropped.

Variable ip_address : string -> urllib_parse.ip_address_result.
Variable normalize_NFKC : string -> string.

(** X13.  A space or a control character (a code point up to 32) in
    front of the string changes nothing to what [validate_api_url]
    gives. *)
Theorem validate_api_url_ignores_leading_blank (c : ascii) (u : string) :
  contains c urllib_parse._WHATWG_C0_CONTROL_OR_SPACE = true ->
  validate_api_url ip_address normalize_NFKC (String c u)
  = validate_api_url ip_address normalize_NFKC u.
Proof.
  intros Hc.
  unfold validate_api_url, urllib_parse.urlparse, urllib_parse.urlsplit.
  cbn [lstrip]. rewrite Hc. reflexivity.
Qed.

(** X14.  A tab, a carriage return or a line feed anywhere in the string
    changes nothing to what [validate_api_url] gives. *)
Theorem validate_api_url_ignores_tabs_and_line_breaks (b : ascii) (a u : string) :
  In b urllib_parse._UNSAFE_URL_BYTES_TO_REMOVE ->
  validate_api_url ip_address normalize_NFKC (a +:+ String b u)
  = validate_api_url ip_address normalize_NFKC (a +:+ u).
Proof.
  intros Hb.
  unfold validate_api_url, urllib_parse.urlparse, urllib_parse.urlsplit.
  rewrite (cleaned_without_unsafe b a u Hb). reflexivity.
Qed.

End Dropped.

(** ** The key *)

(** X15.  [validate_api_key] gives [True] exactly for the keys that are
    not empty: one character is enough, a space too (nothing is
    trimmed). *)
Theorem validate_api_key_true_iff_nonempty (k : string) :
  (validate_api_key k = true <-> k <> "")
  /\ (forall c : ascii, validate_api_key (String c k) = true).
Proof.
  assert (Hcons : forall c k', validate_api_key (String c k') = true).
  { intros c k'. unfold validate_api_key. rewrite len_String.
    pose proof (len_nonneg k'). apply Z.gtb_lt. lia. }
  split; [|intros c; apply Hcons].
  destruct k as [|c k].
  - split; [discriminate|congruence].
  - split; [discriminate|intros _; apply Hcons].
Qed.

(* ===================================================================== *)
(** * The further properties at concrete inputs *)
(* ===================================================================== *)

(** X1 on the client of [Mock] when the network answers 200 with the
    body [null]. *)
Lemma disable_adblocker_by_answer_witness :
  let s := Mock.start [Responded (Mock.ok "null")] in
  heap s !! 1%positive = Some Mock.client
  /\ fst (disable_adblocker Mock.http_get Mock.json_loads 1%positive (Int 30) s)
     = Ok true.
Proof.
  intros s. split; [reflexivity|].
  rewrite (disable_adblocker_by_answer Mock.http_get Mock.json_loads
             1%positive Mock.client (Int 30) s eq_refl).
  reflexivity.
Defined.

(** X2 on the client of [Mock] when the request times out. *)
Lemma make_api_call_transport_failure_witness :
  let s := Mock.start [Failed ReadTimeout "Read timed out."] in
  heap s !! 1%positive = Some Mock.client
  /\ Mock.http_get (api_url Mock.client +:+ "/admin/api.php") None None (net s)
     = (Failed ReadTimeout "Read timed out.", [])
  /\ make_api_call Mock.http_get Mock.json_loads 1%positive
       "/admin/api.php" None None s
     = (Raise (TransportError ReadTimeout "Read timed out."),
        mkState (heap s) []
          [EvGet "http://pihole.local/admin/api.php" None None]).
Proof.
  intros s. do 2 (split; [reflexivity|]).
  apply (make_api_call_transport_failure Mock.http_get Mock.json_loads
           1%positive Mock.client "/admin/api.php" None None s
           ReadTimeout "Read timed out." []);
    reflexivity.
Defined.

(** X3 on the client of [Mock] in front of two answers: one is left. *)
Lemma one_round_trip_per_call_witness :
  let s := Mock.start [Responded Mock.forbidden;
                       Responded (Mock.ok Mock.body_disabled)] in
  heap s !! 1%positive = Some Mock.client
  /\ net (snd (disable_adblocker Mock.http_get Mock.json_loads 1%positive
                 (Int 30) s))
     = [Responded (Mock.ok Mock.body_disabled)].
Proof.
  intros s. split; [reflexivity|].
  destruct (one_round_trip_per_call Mock.http_get Mock.json_loads
              1%positive Mock.client "/admin/api.php" None None (Int 30) s
              eq_refl) as [_ Hnet].
  rewrite Hnet. reflexivity.
Defined.

(** X4 on the client of [Mock] when the body is not JSON. *)
Lemma disable_adblocker_never_raises_HTTPError_witness :
  let s := Mock.start [Responded (Mock.ok "not json")] in
  fst (disable_adblocker Mock.http_get Mock.json_loads 1%positive (Int 30) s)
  = Raise (ValueError "Invalid JSON response.")
  /\ isinstance_HTTPError (ValueError "Invalid JSON response.") = false.
Proof.
  intros s. split; [reflexivity|].
  apply (disable_adblocker_never_raises_HTTPError Mock.http_get Mock.json_loads
           1%positive (Int 30) s (ValueError "Invalid JSON response.")).
  reflexivity.
Defined.

(** X5 on the client of [Mock] when the network answers 200 with five
    thousand digits: the decoder's [ValueError] comes out. *)
Lemma make_api_call_raises_only_witness :
  let s := Mock.start [Responded (Mock.ok Mock.body_digits)] in
  let e := ValueError
             ("Exceeds the limit (4300 digits) for integer string " +:+
              "conversion: value has 5000 digits; use " +:+
              "sys.set_int_max_str_digits() to increase the limit") in
  heap s !! 1%positive = Some Mock.client
  /\ fst (make_api_call Mock.http_get Mock.json_loads 1%positive
            "/admin/api.php" None None s) = Raise e
  /\ ((exists r n,
          Mock.http_get (api_url Mock.client +:+ "/admin/api.php") None None
            (net s) = (Responded r, n)
          /\ status_code r <> 200
          /\ e = HTTPError ("API call failed with status code " +:+
                            str_of_int (status_code r) +:+ "."))
      \/ (exists r n msg,
          Mock.http_get (api_url Mock.client +:+ "/admin/api.php") None None
            (net s) = (Responded r, n)
          /\ status_code r = 200
          /\ Mock.json_loads (text r) = Undecodable msg
          /\ e = ValueError "Invalid JSON response.")
      \/ (exists r n c,
          Mock.http_get (api_url Mock.client +:+ "/admin/api.php") None None
            (net s) = (Responded r, n)
          /\ status_code r = 200
          /\ Mock.json_loads (text r) = Crashed c
          /\ e = crash_exn c)
      \/ (exists cls msg n,
          Mock.http_get (api_url Mock.client +:+ "/admin/api.php") None None
            (net s) = (Failed cls msg, n)
          /\ e = TransportError cls msg)).
Proof.
  intros s e.
  assert (Hraise : fst (make_api_call Mock.http_get Mock.json_loads 1%positive
                          "/admin/api.php" None None s) = Raise e)
    by (vm_compute; reflexivity).
  split; [reflexivity|]. split; [exact Hraise|].
  apply (make_api_call_raises_only Mock.http_get Mock.json_loads
           1%positive Mock.client "/admin/api.php" None None s e eq_refl Hraise).
Defined.

(** X6 on the client of [Mock] when the network answers 204. *)
Lemma status_other_than_200_is_failure_witness :
  let r := mkResponse 204 "No Content" "http://pihole.local/admin/api.php" "" in
  let s := Mock.start [Responded r] in
  heap s !! 1%positive = Some Mock.client
  /\ status_code r <> 200
  /\ (status_code r < 400 \/ 600 <= status_code r)
  /\ raise_for_status r = Ok tt
  /\ fst (disable_adblocker Mock.http_get Mock.json_loads 1%positive (Int 30) s)
     = Ok false.
Proof.
  intros r s.
  split; [reflexivity|]. split; [discriminate|]. split; [left; reflexivity|].
  destruct (status_other_than_200_is_failure Mock.http_get Mock.json_loads
              1%positive Mock.client (Int 30) s r [] eq_refl eq_refl)
    as (Hraise & _ & Hfalse); [discriminate|left; reflexivity|].
  split; [exact Hraise|exact Hfalse].
Defined.

(** X16 on the client of [Mock] when the network answers 200. *)
Lemma make_api_call_library_calls_witness :
  let s := Mock.start [Responded (Mock.ok "null")] in
  heap s !! 1%positive = Some Mock.client
  /\ log (snd (make_api_call Mock.http_get Mock.json_loads 1%positive
                 "/admin/api.php" None None s))
     = [EvGet "http://pihole.local/admin/api.php" None None;
        EvRaiseForStatus (Mock.ok "null"); EvJson (Mock.ok "null")].
Proof.
  intros s. split; [reflexivity|].
  rewrite (make_api_call_library_calls Mock.http_get Mock.json_loads
             1%positive Mock.client "/admin/api.php" None None s eq_refl).
  reflexivity.
Defined.

(** X9 on a string with a bracket that is not closed. *)
Lemma validate_api_url_raises_only_ValueError_witness :
  validate_api_url Mock.ip_address Mock.normalize_NFKC "http://["
  = Raise (ValueError "Invalid IPv6 URL")
  /\ exists msg, ValueError "Invalid IPv6 URL" = ValueError msg.
Proof.
  split; [reflexivity|].
  apply (validate_api_url_raises_only_ValueError
           Mock.ip_address Mock.normalize_NFKC "http://[").
  reflexivity.
Defined.

(** X10 on a host name alone. *)
Lemma validate_api_url_returns_without_brackets_witness :
  str_isascii "pihole.local" = true
  /\ contains "[" "pihole.local" = false
  /\ contains "]" "pihole.local" = false
  /\ exists b,
      validate_api_url Mock.ip_address Mock.normalize_NFKC "pihole.local" = Ok b.
Proof.
  do 3 (split; [reflexivity|]).
  apply (validate_api_url_returns_without_brackets
           Mock.ip_address Mock.normalize_NFKC "pihole.local");
    reflexivity.
Defined.

(** X11 on the URL of the example in [src/main.py]. *)
Lemma validate_api_url_needs_colon_and_slash_witness :
  validate_api_url Mock.ip_address Mock.normalize_NFKC "http://pihole.local"
  = Ok true
  /\ contains ":" "http://pihole.local" = true
  /\ contains "/" "http://pihole.local" = true.
Proof.
  split; [reflexivity|].
  apply (validate_api_url_needs_colon_and_slash
           Mock.ip_address Mock.normalize_NFKC "http://pihole.local").
  reflexivity.
Defined.

(** X12 on a URL with another scheme, a port, a path and a query. *)
Lemma validate_api_url_accepts_scheme_and_host_witness :
  isascii "f" && isalpha "f" = true
  /\ forallb (fun c => contains c urllib_parse.scheme_chars)
       (list_ascii_of_string "ftp") = true
  /\ "10.0.0.5:8080" <> ""
  /\ str_isascii "10.0.0.5:8080" = true
  /\ validate_api_url Mock.ip_address Mock.normalize_NFKC
       ("ftp" +:+ "://" +:+ "10.0.0.5:8080" +:+ "/admin?x=1") = Ok true.
Proof.
  do 2 (split; [reflexivity|]). split; [discriminate|]. split; [reflexivity|].
  apply (validate_api_url_accepts_scheme_and_host
           Mock.ip_address Mock.normalize_NFKC "f" "tp" "10.0.0.5:8080"
           "/admin?x=1");
    try reflexivity; [discriminate|].
  right. exists "/"%char, "admin?x=1". split; [reflexivity|left; reflexivity].
Defined.

(** X13 on a URL with a space in front. *)
Lemma validate_api_url_ignores_leading_blank_witness :
  contains " " urllib_parse._WHATWG_C0_CONTROL_OR_SPACE = true
  /\ validate_api_url Mock.ip_address Mock.normalize_NFKC " http://pihole.local"
     = validate_api_url Mock.ip_address Mock.normalize_NFKC "http://pihole.local".
Proof.
  split; [reflexivity|].
  apply (validate_api_url_ignores_leading_blank
           Mock.ip_address Mock.normalize_NFKC " " "http://pihole.local").
  reflexivity.
Defined.

(** X14 on a URL with a line feed at its end. *)
Lemma validate_api_url_ignores_tabs_and_line_breaks_witness :
  In "010"%char urllib_parse._UNSAFE_URL_BYTES_TO_REMOVE
  /\ validate_api_url Mock.ip_address Mock.normalize_NFKC
       ("http://pihole.local" +:+ String "010" "")
     = validate_api_url Mock.ip_address Mock.normalize_NFKC
         ("http://pihole.local" +:+ "").
Proof.
  assert (H : In "010"%char urllib_parse._UNSAFE_URL_BYTES_TO_REMOVE)
    by (right; right; left; reflexivity).
  split; [exact H|].
  apply (validate_api_url_ignores_tabs_and_line_breaks
           Mock.ip_address Mock.normalize_NFKC "010" "http://pihole.local" "" H).
Defined.
